(** * Image-generation web service: request building, response handling,
      persistence and gallery metadata

    A shallow embedding of [app.py], [static/texture_generator.py] and
    [static/code.py].  Python values that travel as JSON are embedded as the
    type [json]; Python dictionaries keep their insertion order and are
    association lists with unique keys; exceptions are values of [exn] carried
    by the error monad [exc]; the directory of generated files is a finite map
    from file names to file contents.  What the external collaborators answer
    (credential provider, image API, base64 codec, imaging library, clock,
    UUID source, file-name sanitiser) is gathered in the record [env]. *)

From Stdlib Require Import ZArith String Ascii List Floats Lia.
From stdpp Require Import base option list gmap strings.

#[local] Set Warnings "-register-all".
#[local] Arguments String.append !_ _ / : simpl nomatch.
Local Open Scope Z_scope.
Local Open Scope string_scope.

(* ===================================================================== *)
(** * Python values                                                       *)
(* ===================================================================== *)

(** A parsed JSON document, as [json.loads] builds it: [None], [bool], [int],
    [float], [str], [list] and [dict] with string keys. *)
Inductive json : Type :=
| JNull
| JBool (b : bool)
| JInt (z : Z)
| JFloat (f : float)
| JStr (s : string)
| JList (l : list json)
| JDict (d : list (string * json)).

Abbreviation dict := (list (string * json)).

(** The exception classes the three scripts raise or catch. *)
Inductive exn : Type :=
| KeyError | IndexError | TypeError | AttributeError | ValueError
| BinasciiError | OSError | JSONDecodeError | RequestException | HTTPError
| ImageError | UnicodeDecodeError.

(** A computation that returns or raises. *)
Inductive exc (A : Type) : Type :=
| Return (a : A)
| Raise (e : exn).
Arguments Return {A} a.
Arguments Raise {A} e.

#[global] Instance exc_ret : MRet exc := fun A a => Return a.

#[global] Instance exc_bind : MBind exc := fun A B k m =>
  match m with
  | Return a => k a
  | Raise e => Raise e
  end.

(** The classes named by [except (KeyError, IndexError, TypeError)]. *)
Definition is_shape_error (e : exn) : bool :=
  match e with
  | KeyError | IndexError | TypeError => true
  | _ => false
  end.

(** [table.get(key)] for a dictionary or a literal table of the code. *)
Fixpoint assoc {V} (k : string) (t : list (string * V)) : option V :=
  match t with
  | [] => None
  | (k', v) :: t' => if String.eqb k k' then Some v else assoc k t'
  end.

(** [d[k] = v]: replaces the value in place when the key is present, appends
    the pair otherwise. *)
Fixpoint dict_set (k : string) (v : json) (d : dict) : dict :=
  match d with
  | [] => [(k, v)]
  | (k', v') :: d' =>
      if String.eqb k k' then (k, v) :: d' else (k', v') :: dict_set k v d'
  end.

(** [d.update(e)]. *)
Definition dict_update (d e : dict) : dict :=
  fold_left (fun acc kv => dict_set (fst kv) (snd kv) acc) e d.

(** Truth value of an object in a condition. *)
Definition truthy (v : json) : bool :=
  match v with
  | JNull => false
  | JBool b => b
  | JInt z => negb (z =? 0)%Z
  | JFloat f => negb (PrimFloat.eqb f 0%float)
  | JStr s => negb (String.eqb s "")
  | JList l => match l with [] => false | _ => true end
  | JDict d => match d with [] => false | _ => true end
  end.

(** Truth value of an optional string ([None] or [""] is false). *)
Definition truthy_str (o : option string) : bool :=
  match o with
  | Some s => negb (String.eqb s "")
  | None => false
  end.

(* ===================================================================== *)
(** * Strings                                                             *)
(* ===================================================================== *)

(** A string is its sequence of code points, each below 256.  [str.lower]
    maps A-Z and the Latin-1 capitals (U+00C0 to U+00DE, the multiplication
    sign excepted) to the letter 32 places further. *)
Definition lower_char (c : ascii) : ascii :=
  let n := N_of_ascii c in
  if ((65 <=? n)%N && (n <=? 90)%N)
     || ((192 <=? n)%N && (n <=? 222)%N && negb (n =? 215)%N)
  then ascii_of_N (n + 32) else c.

Fixpoint lower (s : string) : string :=
  match s with
  | EmptyString => EmptyString
  | String c s' => String (lower_char c) (lower s')
  end.

(** [p in s] on strings: [p] occurs in [s] as a contiguous run. *)
Fixpoint contains (p s : string) : bool :=
  String.prefix p s
  || match s with
     | EmptyString => false
     | String _ s' => contains p s'
     end.

(** [s.endswith(p)]. *)
Definition endswith (p s : string) : bool :=
  let n := String.length s in
  let m := String.length p in
  (m <=? n)%nat && String.eqb (substring (n - m) m s) p.

(** [c in s] for a single character. *)
Fixpoint has_char (c : ascii) (s : string) : bool :=
  match s with
  | EmptyString => false
  | String c' s' => Ascii.eqb c c' || has_char c s'
  end.

(** [any(c in s for c in chars)]. *)
Fixpoint any_char_in (chars s : string) : bool :=
  match chars with
  | EmptyString => false
  | String c chars' => has_char c s || any_char_in chars' s
  end.

(* ===================================================================== *)
(** * Operators on parsed JSON                                            *)
(* ===================================================================== *)

(** [key in v]. *)
Definition py_in (key : string) (v : json) : exc bool :=
  match v with
  | JDict d => Return (match assoc key d with Some _ => true | None => false end)
  | JList l =>
      Return (existsb (fun x => match x with JStr s => String.eqb s key | _ => false end) l)
  | JStr s => Return (contains key s)
  | _ => Raise TypeError
  end.

(** [v[key]] with a string key. *)
Definition py_getitem (v : json) (key : string) : exc json :=
  match v with
  | JDict d => match assoc key d with Some x => Return x | None => Raise KeyError end
  | _ => Raise TypeError
  end.

(** [v[0]]. *)
Definition py_first (v : json) : exc json :=
  match v with
  | JList l => match l with x :: _ => Return x | [] => Raise IndexError end
  | JStr s => match s with String c _ => Return (JStr (String c "")) | "" => Raise IndexError end
  | JDict _ => Raise KeyError
  | _ => Raise TypeError
  end.

(** [v.get(key, default)]: a method of dictionaries only. *)
Definition py_get (v : json) (key : string) (default : json) : exc json :=
  match v with
  | JDict d => Return (match assoc key d with Some x => x | None => default end)
  | _ => Raise AttributeError
  end.

Definition is_dict (v : json) : bool :=
  match v with JDict _ => true | _ => false end.

(* ===================================================================== *)
(** * Messages                                                            *)
(* ===================================================================== *)

(** An f-string before its holes are printed: literal text, [str(v)] of a
    parsed value, or [str(e)] of a caught exception. *)
Inductive fragment : Type :=
| Text (s : string)
| ShowJson (v : json)
| ShowExn (e : exn).

Abbreviation message := (list fragment).

(** The text of a message, given how Python prints values and exceptions. *)
Definition render (str_json : json -> string) (str_exn : exn -> string)
    (m : message) : string :=
  fold_right
    (fun f acc =>
       match f with
       | Text s => s ++ acc
       | ShowJson v => str_json v ++ acc
       | ShowExn e => str_exn e ++ acc
       end) "" m.

(* ===================================================================== *)
(** * Images, files and the outside world                                 *)
(* ===================================================================== *)

Abbreviation bytes := (list Byte.byte).

(** A bitmap of the imaging library: its mode, its size and one
    (red, green, blue, alpha) quadruple per pixel, each band in 0..255.  The
    library stores the modes without transparency with the fourth band at 255. *)
Inductive mode : Type := RGBA | RGB | OtherMode (name : string).

Record pixel : Type := Pixel { red : Z; green : Z; blue : Z; alpha : Z }.

Record image : Type := Image {
  im_mode : mode;
  im_size : Z * Z;
  im_data : list pixel
}.

(** What a file of the output directory holds: raw bytes, a JSON text, or a
    PNG encoding (lossless) of a bitmap. *)
Inductive file : Type :=
| Blob (data : bytes)
| JsonText (j : json)
| Png (img : image).

(** How the provider answers one POST. *)
Inductive http_outcome : Type :=
| HttpOk (body : option json)
| HttpTimeout
| HttpError (status : Z) (body : option json) (text : string)
| HttpNetworkError.

(** The answers of the external collaborators during one request:
    - [access_token]: what [get_access_token()] returns;
    - [post]: the outcome of [requests.post] with [raise_for_status] and
      [response.json()], for a request body;
    - [a2b_base64]: the base64 codec on ASCII text, [None] for
      [binascii.Error];
    - [uuid4]: [str(uuid.uuid4())]; [now_isoformat]: the clock;
    - [secure_filename]: the sanitiser of the web framework;
    - [open_fails], [remove_fails]: whether opening a file for writing, or
      removing it, raises;
    - [Image_open]: the bitmap the imaging library reads from bytes, [None]
      when it raises; [to_rgba]: the pixels of [image.convert("RGBA")];
    - [str_json]: [str(v)] for a value that is not text;
    - [decodes]: whether the bytes of a file decode as text in the encoding
      that [open(path, 'r')] uses, which is that of the host's locale. *)
Record env : Type := Env {
  access_token : option string;
  post : json -> http_outcome;
  a2b_base64 : string -> option bytes;
  uuid4 : string;
  now_isoformat : string;
  secure_filename : string -> string;
  open_fails : string -> bool;
  remove_fails : string -> bool;
  Image_open : bytes -> option image;
  to_rgba : image -> option (list pixel);
  str_json : json -> string;
  decodes : file -> bool
}.

(** The output directory and the requests sent so far. *)
Record state : Type := State {
  files : gmap string file;
  sent : list json
}.

Definition is_ascii (s : string) : bool :=
  forallb (fun c => (N_of_ascii c <? 128)%N) (list_ascii_of_string s).

(** [base64.b64decode(v)]: text must be ASCII, anything that is neither text
    nor bytes is a [TypeError], malformed text is a [binascii.Error]. *)
Definition b64decode (E : env) (v : json) : exc bytes :=
  match v with
  | JStr s =>
      if is_ascii s then
        match a2b_base64 E s with
        | Some b => Return b
        | None => Raise BinasciiError
        end
      else Raise ValueError
  | _ => Raise TypeError
  end.

(** [json.load] of a file opened as text.  A file whose text is a JSON
    document is a [JsonText]; any other file either decodes to a text that is
    no JSON document, or does not decode at all, and then reading it raises
    [UnicodeDecodeError], which is no [JSONDecodeError].  The scripts apply
    [json.load] to the metadata document only, which they write with
    [json.dump]. *)
Definition json_load (E : env) (f : file) : exc json :=
  match f with
  | JsonText j => Return j
  | _ => if decodes E f then Raise JSONDecodeError else Raise UnicodeDecodeError
  end.

Definition metadata_path : string := "metadata.json".

(* ===================================================================== *)
(** * app.py                                                              *)
(* ===================================================================== *)

Module App.

Definition quality_params : list (string * dict) :=
  [ ("standard", [("steps", JInt 30)]);
    ("hd", [("steps", JInt 50)]) ].

(** Each row is (height, width). *)
Definition aspect_dimensions : list (string * (Z * Z)) :=
  [ ("1:1", (1024, 1024));
    ("16:9", (576, 1024));
    ("9:16", (1024, 576));
    ("4:3", (768, 1024));
    ("3:4", (1024, 768));
    ("21:9", (448, 1024)) ].

Definition guidance_scales : list (string * float) :=
  [ ("photographic", 6.0%float);
    ("digital-art", 7.5%float);
    ("cinematic", 7.0%float);
    ("anime", 7.0%float);
    ("fantasy-art", 8.0%float);
    ("neon-punk", 8.5%float);
    ("enhance", 5.5%float);
    ("comic-book", 7.5%float);
    ("isometric", 7.0%float);
    ("low-poly", 7.0%float);
    ("origami", 7.5%float);
    ("line-art", 7.0%float);
    ("watercolor", 6.5%float);
    ("pixel-art", 8.0%float) ].

Definition style_prefixes : list (string * string) :=
  [ ("digital-art", "digital art style");
    ("cinematic", "cinematic lighting");
    ("anime", "anime style");
    ("fantasy-art", "fantasy art");
    ("neon-punk", "neon cyberpunk style");
    ("comic-book", "comic book style");
    ("isometric", "isometric view");
    ("low-poly", "low poly 3D");
    ("origami", "origami style");
    ("line-art", "line art");
    ("watercolor", "watercolor painting");
    ("pixel-art", "pixel art") ].

(** [table.get(style_preset)] for a preset that may be [None]. *)
Definition preset_lookup {V} (style_preset : option string)
    (t : list (string * V)) : option V :=
  match style_preset with
  | Some s => assoc s t
  | None => None
  end.

(** The payload of [generate_image_requests]: the [instance] dictionary. *)
Definition build_instance (prompt : string) (negative_prompt style_preset : option string)
    : dict :=
  let instance := [("prompt", JStr prompt)] in
  let instance :=
    match negative_prompt with
    | Some n => if truthy (JStr n)
                then dict_set "negative_prompt" (JStr n) instance else instance
    | None => instance
    end in
  match preset_lookup style_preset guidance_scales with
  | Some _ =>
      match preset_lookup style_preset style_prefixes with
      | Some prefix =>
          if negb (contains (lower prefix) (lower prompt))
          then dict_set "prompt" (JStr (prompt ++ ", " ++ prefix)) instance
          else instance
      | None => instance
      end
  | None => instance
  end.

(** The payload of [generate_image_requests]: the [parameters] dictionary. *)
Definition build_parameters (style_preset : option string)
    (aspect_ratio quality : string) : dict :=
  let parameters := [("sampleCount", JInt 1)] in
  let parameters :=
    match assoc quality quality_params with
    | Some q => dict_update parameters q
    | None => parameters
    end in
  let parameters :=
    match assoc aspect_ratio aspect_dimensions with
    | Some (h, w) => dict_set "width" (JInt w) (dict_set "height" (JInt h) parameters)
    | None => dict_set "width" (JInt 1024) (dict_set "height" (JInt 1024) parameters)
    end in
  match preset_lookup style_preset guidance_scales with
  | Some g => dict_set "guidance_scale" (JFloat g) parameters
  | None => dict_set "guidance_scale" (JFloat 7.0%float) parameters
  end.

(** The request body [data]. *)
Definition build_request (prompt : string) (negative_prompt style_preset : option string)
    (aspect_ratio quality : string) : json :=
  JDict [ ("instances", JList [JDict (build_instance prompt negative_prompt style_preset)]);
          ("parameters", JDict (build_parameters style_preset aspect_ratio quality)) ].

(** What [generate_image_requests] returns: [{"image_url": url}],
    [{"error": msg}], or an exception that no handler of the function takes. *)
Inductive result : Type :=
| ImageUrl (url : string)
| Error (msg : message)
| Uncaught (e : exn).

Definition no_predictions : message :=
  [Text "API did not return predictions. Check logs."].

Definition blocked (reasons : json) : message :=
  [ Text "Generation blocked by safety filters (Reason: "; ShowJson reasons;
    Text "). Please modify your prompt." ].

(** The test on [response_json] that precedes the extraction: [Some r] when
    the function returns [r] there, [None] when it goes on. *)
Definition check_predictions (response_json : json) : exc (option result) :=
  present ← py_in "predictions" response_json;
  missing ← (if negb present then Return true
             else p ← py_getitem response_json "predictions"; Return (negb (truthy p)));
  if missing : bool then
    has_safety ← py_in "safetyAttributes" response_json;
    if has_safety : bool then
      safety_attrs ← py_get response_json "safetyAttributes" (JDict []);
      filtered ← py_get safety_attrs "filtered" (JBool false);
      reasons ← py_get safety_attrs "reason" (JStr "Unknown");
      if truthy filtered then Return (Some (Error (blocked reasons)))
      else Return (Some (Error no_predictions))
    else Return (Some (Error no_predictions))
  else Return None.

(** [response_json['predictions'][0]['bytesBase64Encoded']]. *)
Definition extract_image_data (response_json : json) : exc json :=
  predictions ← py_getitem response_json "predictions";
  prediction ← py_first predictions;
  py_getitem prediction "bytesBase64Encoded".

Definition parse_failure : message :=
  [Text "Failed to parse expected image data from API response."].

Definition decode_failure (e : exn) : message :=
  [Text "Failed to decode or save generated image: "; ShowExn e].

Definition unexpected (e : exn) : message :=
  [Text "An unexpected server error occurred during generation: "; ShowExn e].

(** [save_image_metadata]: the document is read (one that is no JSON text
    counts as empty; one that does not decode raises an error that the
    function does not handle), the entry appended, the document written back;
    a failed write is only logged. *)
Definition save_image_metadata (E : env) (fs : gmap string file)
    (filename prompt operation_type : string) (extra_params : dict)
    : exc unit * gmap string file :=
  let metadata :=
    match fs !! metadata_path with
    | Some f => match json_load E f with
                | Return j => Return j
                | Raise JSONDecodeError | Raise OSError => Return (JList [])
                | Raise e => Raise e
                end
    | None => Return (JList [])
    end in
  let entry := [ ("filename", JStr filename); ("prompt", JStr prompt);
                 ("type", JStr operation_type); ("created", JStr (now_isoformat E)) ] in
  let entry := if truthy (JDict extra_params) then dict_update entry extra_params else entry in
  match metadata with
  | Raise e => (Raise e, fs)
  | Return (JList l) =>
      if open_fails E metadata_path then (Return (), fs)
      else (Return (), <[metadata_path := JsonText (JList (l ++ [JDict entry]))]> fs)
  | Return _ => (Raise AttributeError, fs)
  end.

Definition json_of_option (o : option string) : json :=
  match o with
  | Some s => JStr s
  | None => JNull
  end.

(** Decoding and saving, with the handlers of the two enclosing [try]s. *)
Definition on_save_error (e : exn) : result :=
  match e with
  | BinasciiError | TypeError | OSError => Error (decode_failure e)
  | _ => Error (unexpected e)
  end.

Definition save_generated (E : env) (fs : gmap string file) (prompt : string)
    (style_preset : option string) (aspect_ratio quality : string)
    (image_b64_data : json) : result * gmap string file :=
  let unique_filename := "generated_" ++ uuid4 E ++ ".png" in
  match b64decode E image_b64_data with
  | Raise e => (on_save_error e, fs)
  | Return image_bytes =>
      if open_fails E unique_filename then (on_save_error OSError, fs)
      else
        let fs1 := <[unique_filename := Blob image_bytes]> fs in
        let image_url := "/static/generated/" ++ unique_filename in
        match save_image_metadata E fs1 unique_filename prompt "generation"
                [ ("style_preset", json_of_option style_preset);
                  ("aspect_ratio", JStr aspect_ratio);
                  ("quality", JStr quality) ] with
        | (Return _, fs2) => (ImageUrl image_url, fs2)
        | (Raise e, fs2) => (on_save_error e, fs2)
        end
  end.

(** What happens to a parsed body of a successful response. *)
Definition handle_response (E : env) (fs : gmap string file) (prompt : string)
    (style_preset : option string) (aspect_ratio quality : string)
    (response_json : json) : result * gmap string file :=
  match check_predictions response_json with
  | Raise e => (Error (unexpected e), fs)
  | Return (Some r) => (r, fs)
  | Return None =>
      match extract_image_data response_json with
      | Raise e =>
          if is_shape_error e then (Error parse_failure, fs)
          else (Error (unexpected e), fs)
      | Return image_b64_data =>
          save_generated E fs prompt style_preset aspect_ratio quality image_b64_data
      end
  end.

(** The message for a 4xx or 5xx response. *)
Definition http_error (status : Z) (body : option json) (text : string) : result :=
  match body with
  | None => Error [Text "HTTP "; ShowJson (JInt status); Text ": "; Text text]
  | Some err_json =>
      match (err ← py_get err_json "error" (JDict []); py_get err "message" (JStr text)) with
      | Return m => Error [Text "HTTP "; ShowJson (JInt status); Text ": "; ShowJson m]
      | Raise e => Uncaught e
      end
  end.

Definition generate_image_requests (E : env) (st : state) (prompt : string)
    (negative_prompt style_preset : option string) (aspect_ratio quality : string)
    : result * state :=
  if negb (truthy_str (access_token E)) then
    (Error [Text "Failed to get access token. Check server logs."], st)
  else
    let data := build_request prompt negative_prompt style_preset aspect_ratio quality in
    let st1 := State (files st) (sent st ++ [data]) in
    match post E data with
    | HttpTimeout => (Error [Text "Image generation request timed out."], st1)
    | HttpError status body text => (http_error status body text, st1)
    | HttpNetworkError =>
        (Error [Text "Network or request error during generation: ";
                ShowExn RequestException], st1)
    | HttpOk None =>
        (Error [Text "API returned OK status but response was not valid JSON."], st1)
    | HttpOk (Some response_json) =>
        let '(r, fs) := handle_response E (files st) prompt style_preset aspect_ratio
                          quality response_json in
        (r, State fs (sent st1))
    end.

(** The JSON answer of an endpoint with its status code. *)
Record response : Type := Response {
  success : bool;
  error : option message;
  status : Z
}.

(** [os.path.exists(os.path.join(GENERATED_FOLDER, name))]: the empty name is
    the folder itself. *)
Definition path_exists (fs : gmap string file) (name : string) : bool :=
  if String.eqb name "" then true
  else match fs !! name with Some _ => true | None => false end.

(** [os.remove]: a folder cannot be removed this way. *)
Definition os_remove (E : env) (fs : gmap string file) (name : string)
    : exc (gmap string file) :=
  if String.eqb name "" then Raise OSError
  else if remove_fails E name then Raise OSError
  else Return (delete name fs).

(** [item.get('filename') != filename]. *)
Definition keeps (filename : string) (item : json) : exc bool :=
  v ← py_get item "filename" JNull;
  Return (match v with
          | JStr s => negb (String.eqb s filename)
          | _ => true
          end).

Fixpoint filter_items (filename : string) (items : list json) : exc (list json) :=
  match items with
  | [] => Return []
  | item :: rest =>
      keep ← keeps filename item;
      rest' ← filter_items filename rest;
      Return (if keep : bool then item :: rest' else rest')
  end.

(** [[item for item in metadata if item.get('filename') != filename]]:
    iterating a dictionary or a string yields strings, which have no [get];
    numbers, booleans and [None] cannot be iterated. *)
Definition filter_metadata (filename : string) (metadata : json) : exc json :=
  match metadata with
  | JList l => l' ← filter_items filename l; Return (JList l')
  | JDict d => match d with [] => Return (JList []) | _ => Raise AttributeError end
  | JStr s => if String.eqb s "" then Return (JList []) else Raise AttributeError
  | _ => Raise TypeError
  end.

Definition delete_image (E : env) (fs : gmap string file) (filename : string)
    : response * gmap string file :=
  if String.eqb filename "" then
    (Response false (Some [Text "No filename provided"]) 400, fs)
  else
    let filename := secure_filename E filename in
    if negb (path_exists fs filename) then
      (Response false (Some [Text "File not found"]) 404, fs)
    else
      match os_remove E fs filename with
      | Raise e => (Response false (Some [ShowExn e]) 500, fs)
      | Return fs1 =>
          match fs1 !! metadata_path with
          | None => (Response true None 200, fs1)
          | Some f =>
              match (metadata ← json_load E f; filter_metadata filename metadata) with
              | Return metadata' =>
                  if open_fails E metadata_path then (Response true None 200, fs1)
                  else (Response true None 200, <[metadata_path := JsonText metadata']> fs1)
              | Raise JSONDecodeError | Raise OSError => (Response true None 200, fs1)
              | Raise e => (Response false (Some [ShowExn e]) 500, fs1)
              end
          end
      end.

End App.

(* ===================================================================== *)
(** * The imaging library                                                 *)
(* ===================================================================== *)

Definition mode_eqb (m n : mode) : bool :=
  match m, n with
  | RGBA, RGBA | RGB, RGB => true
  | OtherMode a, OtherMode b => String.eqb a b
  | _, _ => false
  end.

Definition size_eqb (a b : Z * Z) : bool :=
  (fst a =? fst b)%Z && (snd a =? snd b)%Z.

(** [image.convert("RGBA")]: size kept, pixels as the library converts them. *)
Definition convert_RGBA (E : env) (img : image) : exc image :=
  match to_rgba E img with
  | Some px => Return (Image RGBA (im_size img) px)
  | None => Raise ValueError
  end.

(** [Image.new("RGBA", size, color)]. *)
Definition Image_new_RGBA (size : Z * Z) (color : pixel) : image :=
  Image RGBA size (repeat color (Z.to_nat (fst size * snd size))).

(** The library's rounded division by 255 of a 16-bit product. *)
Definition shift_for_div255 (a : Z) : Z :=
  Z.shiftr (Z.shiftr a 8 + a) 8.

Definition precision_bits : Z := 7.

(** One pixel of [Image.alpha_composite(dst, src)]: [src] over [dst], in the
    library's integer arithmetic. *)
Definition composite_pixel (dst src : pixel) : pixel :=
  if (alpha src =? 0)%Z then dst
  else
    let blend := alpha dst * (255 - alpha src) in
    let outa255 := alpha src * 255 + blend in
    let coef1 := alpha src * 255 * 255 * Z.shiftl 1 precision_bits / outa255 in
    let coef2 := 255 * Z.shiftl 1 precision_bits - coef1 in
    let band (s d : Z) :=
      Z.shiftr (shift_for_div255 (s * coef1 + d * coef2 + Z.shiftl 128 precision_bits))
               precision_bits in
    Pixel (band (red src) (red dst)) (band (green src) (green dst))
          (band (blue src) (blue dst)) (shift_for_div255 (outa255 + 128)).

Fixpoint zip_pixels (f : pixel -> pixel -> pixel) (a b : list pixel) : list pixel :=
  match a, b with
  | x :: a', y :: b' => f x y :: zip_pixels f a' b'
  | _, _ => []
  end.

(** [Image.alpha_composite(im1, im2)]: both RGBA and of one size. *)
Definition alpha_composite (im1 im2 : image) : exc image :=
  if mode_eqb (im_mode im1) RGBA && mode_eqb (im_mode im2) RGBA
     && size_eqb (im_size im1) (im_size im2)
  then Return (Image RGBA (im_size im1) (zip_pixels composite_pixel (im_data im1) (im_data im2)))
  else Raise ValueError.

(** [image.convert("RGB")] of an RGBA bitmap: the alpha band is dropped. *)
Definition convert_RGB (img : image) : image :=
  Image RGB (im_size img)
        (map (fun p => Pixel (red p) (green p) (blue p) 255) (im_data img)).

(** The alpha of a pixel as an RGBA reading of the bitmap gives it. *)
Definition alpha_band (img : image) : list Z :=
  match im_mode img with
  | RGBA => map alpha (im_data img)
  | _ => map (fun _ => 255) (im_data img)
  end.

Definition fully_opaque (img : image) : bool :=
  forallb (fun a => (a =? 255)%Z) (alpha_band img).

(** The band [s] of a pixel of alpha [a] seen over white: the mix
    [(s * a + 255 * (255 - a)) / 255], rounded to the nearest integer. *)
Definition over_white (s a : Z) : Z :=
  (2 * (s * a + 255 * (255 - a)) + 255) / 510.

(** What the texture scripts return: the saved file, [None] after the
    logged line, or an exception that leaves the function. *)
Inductive outcome : Type :=
| Saved (name : string)
| Aborted (log : message)
| Crashed (e : exn).

(** The answer of [/generate_texture]. *)
Inductive texture_response : Type :=
| FilePath (name : string)
| Refused (msg : string) (code : Z)
| ServerError (e : exn).

(** [str(v)]: text prints as itself. *)
Definition py_str (E : env) (v : json) : string :=
  match v with
  | JStr s => s
  | _ => str_json E v
  end.

(** The characters that a file name may not hold: angle brackets, colon,
    double quote (code 34), both slashes, bar, question mark and star. *)
Definition forbidden_chars : string :=
  "<>:" ++ String (ascii_of_nat 34) "/\|?*".

(** The request body of both texture scripts. *)
Definition texture_request (prompt : json) : json :=
  JDict [ ("instances", JList [JDict [("prompt", prompt)]]);
          ("parameters", JDict []) ].

(** The check on [prompt] and [output_filename] that both endpoints make:
    the refusal, or the two values. *)
Definition validate (data : json) : exc (texture_response + json * string) :=
  prompt ← py_get data "prompt" JNull;
  output_filename ← py_get data "output_filename" JNull;
  if negb (truthy prompt) || negb (truthy output_filename) then
    Return (inl (Refused "Missing 'prompt' or 'output_filename' in request." 400))
  else
    match output_filename with
    | JStr name =>
        if negb (endswith ".png" name) || any_char_in forbidden_chars name then
          Return (inl (Refused "Invalid output filename." 400))
        else Return (inr (prompt, name))
    | _ => Raise AttributeError
    end.

Definition finish (r : outcome) : texture_response :=
  match r with
  | Saved name => FilePath name
  | Aborted _ => Refused "Failed to generate texture." 500
  | Crashed e => ServerError e
  end.

(* ===================================================================== *)
(** * static/texture_generator.py                                         *)
(* ===================================================================== *)

Module TextureGenerator.

(** The search for the image data in [response_json]. *)
Definition extract_image_data (response_json : json) : exc json :=
  present ← py_in "predictions" response_json;
  found ← (if present : bool then p ← py_getitem response_json "predictions"; Return (truthy p)
           else Return false);
  if found : bool then
    predictions ← py_getitem response_json "predictions";
    prediction ← py_first predictions;
    match prediction with
    | JDict d =>
        match assoc "bytesBase64Encoded" d, assoc "imageBytes" d, assoc "image" d with
        | Some v, _, _ => Return v
        | None, Some v, _ => Return v
        | None, None, Some (JDict i) =>
            Return (match assoc "bytesBase64Encoded" i with Some v => v | None => JNull end)
        | None, None, _ => Return prediction
        end
    | _ => Return prediction
    end
  else Raise KeyError.

(** The two lines the function logs before it returns [None] for a body it
    cannot read and for data it cannot turn into a picture. *)
Definition extraction_failure (e : exn) : message :=
  [Text "Error extracting image data from response: "; ShowExn e].

Definition processing_failure (e : exn) : message :=
  [Text "Error processing image: "; ShowExn e].

(** Decoding, flattening onto white and saving; any exception is logged. *)
Definition process_image (E : env) (image_b64_data : json) : exc image :=
  image_bytes ← b64decode E image_b64_data;
  image ← (match Image_open E image_bytes with
           | Some i => Return i
           | None => Raise ImageError
           end);
  image ← (if negb (mode_eqb (im_mode image) RGBA) then convert_RGBA E image
           else Return image);
  let background := Image_new_RGBA (im_size image) (Pixel 255 255 255 255) in
  composite ← alpha_composite background image;
  Return (convert_RGB composite).

Definition save_image (E : env) (fs : gmap string file) (image_b64_data : json)
    (output_filename : string) : outcome * gmap string file :=
  match process_image E image_b64_data with
  | Raise e => (Aborted (processing_failure e), fs)
  | Return final_image =>
      if open_fails E output_filename then (Aborted (processing_failure OSError), fs)
      else (Saved output_filename, <[output_filename := Png final_image]> fs)
  end.

(** What the function does with the parsed body of a successful response. *)
Definition handle_response (E : env) (fs : gmap string file) (response_json : json)
    (output_filename : string) : outcome * gmap string file :=
  match py_in "error" response_json with
  | Raise e => (Crashed e, fs)
  | Return true =>
      match (err ← py_getitem response_json "error";
             py_get err "message" (JStr "Unknown API error in JSON")) with
      | Return m => (Aborted [Text "API Error in Response: "; ShowJson m], fs)
      | Raise e => (Crashed e, fs)
      end
  | Return false =>
      match extract_image_data response_json with
      | Raise e =>
          if is_shape_error e then
            (Aborted (extraction_failure e), fs)
          else (Crashed e, fs)
      | Return image_b64_data => save_image E fs image_b64_data output_filename
      end
  end.

(** A body that is no JSON makes [response.json()] raise an error that is
    also a [RequestException], so the handler of that class logs it. *)
Definition generate_image_requests (E : env) (st : state) (prompt : json)
    (output_filename : string) : outcome * state :=
  if negb (truthy_str (access_token E)) then
    (Aborted [Text "Failed to get access token. Aborting generation."], st)
  else
    let data := texture_request prompt in
    let st1 := State (files st) (sent st ++ [data]) in
    match post E data with
    | HttpTimeout => (Aborted [Text "Error: API request timed out after 120 seconds."], st1)
    | HttpError _ _ _ =>
        (Aborted [Text "Error: HTTP Error occurred: "; ShowExn HTTPError], st1)
    | HttpNetworkError =>
        (Aborted [Text "Error: API request failed: "; ShowExn RequestException], st1)
    | HttpOk None =>
        (Aborted [Text "Error: API request failed: "; ShowExn JSONDecodeError], st1)
    | HttpOk (Some response_json) =>
        let '(r, fs) := handle_response E (files st1) response_json output_filename in
        (r, State fs (sent st1))
    end.

Definition suffix : string :=
  ", seamless tileable texture, full rectangular format, no rounded corners, no borders, no black spaces, no gaps, filling entire frame, high-resolution, flat texture".

(** The view function of [/generate_texture] from the parsed body [data] on;
    [serve] below has the request before it is parsed. *)
Definition generate_texture (E : env) (st : state) (data : json)
    : texture_response * state :=
  match validate data with
  | Raise e => (ServerError e, st)
  | Return (inl refusal) => (refusal, st)
  | Return (inr (prompt, output_filename)) =>
      let enhanced_prompt := py_str E prompt ++ suffix in
      let '(saved_file, st') :=
        generate_image_requests E st (JStr enhanced_prompt) output_filename in
      (finish saved_file, st')
  end.

End TextureGenerator.

(* ===================================================================== *)
(** * static/code.py                                                      *)
(* ===================================================================== *)

Module Code.

Definition extract_image_data (response_json : json) : exc json :=
  predictions ← py_getitem response_json "predictions";
  prediction ← py_first predictions;
  py_getitem prediction "bytesBase64Encoded".

Definition extraction_failure (e : exn) : message :=
  [ Text "Error extracting image data from JSON path ['predictions'][0]['bytesBase64Encoded']: ";
    ShowExn e ].

Definition decode_failure (e : exn) : message :=
  [Text "Error decoding base64 data: "; ShowExn e].

(** Decoding and saving: only [binascii.Error] and [TypeError] are handled
    here. *)
Definition save_image (E : env) (fs : gmap string file) (image_b64_data : json)
    (output_filename : string) : outcome * gmap string file :=
  match b64decode E image_b64_data with
  | Raise e =>
      match e with
      | BinasciiError | TypeError =>
          (Aborted (decode_failure e), fs)
      | _ => (Crashed e, fs)
      end
  | Return image_bytes =>
      if open_fails E output_filename then (Crashed OSError, fs)
      else (Saved output_filename, <[output_filename := Blob image_bytes]> fs)
  end.

Definition handle_response (E : env) (fs : gmap string file) (response_json : json)
    (output_filename : string) : outcome * gmap string file :=
  match py_in "error" response_json with
  | Raise e => (Crashed e, fs)
  | Return true =>
      match (err ← py_getitem response_json "error";
             py_get err "message" (JStr "Unknown API error in JSON")) with
      | Return m => (Aborted [Text "API Error in Response: "; ShowJson m], fs)
      | Raise e => (Crashed e, fs)
      end
  | Return false =>
      match extract_image_data response_json with
      | Raise e =>
          if is_shape_error e then
            (Aborted (extraction_failure e), fs)
          else (Crashed e, fs)
      | Return image_b64_data => save_image E fs image_b64_data output_filename
      end
  end.

(** A body that is no JSON makes [response.json()] raise an error that is
    also a [RequestException], so the handler of that class logs it. *)
Definition generate_image_requests (E : env) (st : state) (prompt : json)
    (output_filename : string) : outcome * state :=
  if negb (truthy_str (access_token E)) then
    (Aborted [Text "Failed to get access token. Aborting generation."], st)
  else
    let data := texture_request prompt in
    let st1 := State (files st) (sent st ++ [data]) in
    match post E data with
    | HttpTimeout => (Aborted [Text "Error: API request timed out after 120 seconds."], st1)
    | HttpError _ _ _ =>
        (Aborted [Text "Error: HTTP Error occurred: "; ShowExn HTTPError], st1)
    | HttpNetworkError =>
        (Aborted [Text "Error: API request failed: "; ShowExn RequestException], st1)
    | HttpOk None =>
        (Aborted [Text "Error: API request failed: "; ShowExn JSONDecodeError], st1)
    | HttpOk (Some response_json) =>
        let '(r, fs) := handle_response E (files st1) response_json output_filename in
        (r, State fs (sent st1))
    end.

(** The view function of [/generate_texture] from the parsed body [data] on;
    [serve] below has the request before it is parsed. *)
Definition generate_texture (E : env) (st : state) (data : json)
    : texture_response * state :=
  match validate data with
  | Raise e => (ServerError e, st)
  | Return (inl refusal) => (refusal, st)
  | Return (inr (prompt, output_filename)) =>
      let '(saved_file, st') := generate_image_requests E st prompt output_filename in
      (finish saved_file, st')
  end.

End Code.

(* ===================================================================== *)
(** * Reading a request body                                              *)
(* ===================================================================== *)

(** [data["parameters"][key]]. *)
Definition parameter (key : string) (data : json) : option json :=
  match data with
  | JDict d =>
      match assoc "parameters" d with
      | Some (JDict p) => assoc key p
      | _ => None
      end
  | _ => None
  end.

(** [data["instances"][0]["prompt"]] when it is text. *)
Definition instance_prompt (data : json) : option string :=
  match data with
  | JDict d =>
      match assoc "instances" d with
      | Some (JList (JDict i :: _)) =>
          match assoc "prompt" i with
          | Some (JStr s) => Some s
          | _ => None
          end
      | _ => None
      end
  | _ => None
  end.

(** The documented table of sizes, as the specification words it: the six
    ratios with their (height, width), and the square for anything else. *)
Definition documented_dimensions (aspect_ratio : string) : Z * Z :=
  if String.eqb aspect_ratio "1:1" then (1024, 1024)
  else if String.eqb aspect_ratio "16:9" then (576, 1024)
  else if String.eqb aspect_ratio "9:16" then (1024, 576)
  else if String.eqb aspect_ratio "4:3" then (768, 1024)
  else if String.eqb aspect_ratio "3:4" then (1024, 768)
  else if String.eqb aspect_ratio "21:9" then (448, 1024)
  else (1024, 1024).

(** The entry of the metadata document that matches a file name, as the
    specification words it: an object whose ["filename"] is that name. *)
Definition entry_is_for (filename : string) (item : json) : bool :=
  match item with
  | JDict d =>
      match assoc "filename" d with
      | Some (JStr s) => String.eqb s filename
      | _ => false
      end
  | _ => false
  end.

(* ===================================================================== *)
(** * A sample run of the collaborators                                   *)
(* ===================================================================== *)

(** The sanitiser of the web framework on a POSIX host, for names written in
    ASCII: the path separator becomes a blank, the words are joined with an
    underscore, every character outside letters, digits, underscore, dot and
    dash is dropped, and dots and underscores are stripped from both ends.
    It is the framework's sanitiser on ASCII names only: characters above
    127 are dropped here, where the framework first decomposes an accented
    letter into its base letter and keeps that. *)
Definition is_space (c : ascii) : bool :=
  let n := N_of_ascii c in
  ((9 <=? n)%N && (n <=? 13)%N) || ((28 <=? n)%N && (n <=? 32)%N).

Fixpoint join_words (cs : list ascii) (started pending : bool) : list ascii :=
  match cs with
  | [] => []
  | c :: cs' =>
      if is_space c then join_words cs' started started
      else (if pending then ["_"%char] else []) ++ c :: join_words cs' true false
  end.

Definition is_safe_char (c : ascii) : bool :=
  let n := N_of_ascii c in
  ((65 <=? n)%N && (n <=? 90)%N) || ((97 <=? n)%N && (n <=? 122)%N)
  || ((48 <=? n)%N && (n <=? 57)%N)
  || Ascii.eqb c "_" || Ascii.eqb c "." || Ascii.eqb c "-".

Definition is_dot_or_underscore (c : ascii) : bool :=
  Ascii.eqb c "." || Ascii.eqb c "_".

Fixpoint lstrip (cs : list ascii) : list ascii :=
  match cs with
  | c :: cs' => if is_dot_or_underscore c then lstrip cs' else cs
  | [] => []
  end.

Definition secure_filename_posix (filename : string) : string :=
  let cs := List.filter (fun c => (N_of_ascii c <? 128)%N) (list_ascii_of_string filename) in
  let cs := map (fun c => if Ascii.eqb c "/" then " "%char else c) cs in
  let cs := List.filter is_safe_char (join_words cs false false) in
  string_of_list_ascii (rev (lstrip (rev (lstrip cs)))).

Fixpoint bytes_eqb (a b : bytes) : bool :=
  match a, b with
  | [], [] => true
  | x :: a', y :: b' => Byte.eqb x y && bytes_eqb a' b'
  | _, _ => false
  end.

(** The first eight bytes of every PNG file, standing for a whole file, and
    their base64 text. *)
Definition png_bytes : bytes :=
  [Byte.x89; Byte.x50; Byte.x4e; Byte.x47; Byte.x0d; Byte.x0a; Byte.x1a; Byte.x0a].

Definition png_text : string := "iVBORw0KGgo=".

(** Well-formed UTF-8, as the strict decoder has it: [pending] continuation
    bytes are still due, the next of them between [lo] and [hi] (the ranges
    that rule out overlong forms, surrogates and code points past U+10FFFF). *)
Fixpoint utf8_from (pending : nat) (lo hi : N) (bs : list N) : bool :=
  match bs with
  | [] => match pending with O => true | S _ => false end
  | b :: rest =>
      match pending with
      | S n => (lo <=? b)%N && (b <=? hi)%N && utf8_from n 128 191 rest
      | O =>
          if (b <? 128)%N then utf8_from 0 128 191 rest
          else if (194 <=? b)%N && (b <=? 223)%N then utf8_from 1 128 191 rest
          else if (b =? 224)%N then utf8_from 2 160 191 rest
          else if (b =? 237)%N then utf8_from 2 128 159 rest
          else if (225 <=? b)%N && (b <=? 239)%N then utf8_from 2 128 191 rest
          else if (b =? 240)%N then utf8_from 3 144 191 rest
          else if (b =? 244)%N then utf8_from 3 128 143 rest
          else if (241 <=? b)%N && (b <=? 243)%N then utf8_from 3 128 191 rest
          else false
      end
  end.

Definition is_utf8 (data : bytes) : bool :=
  utf8_from 0 128 191 (map Byte.to_N data).

(** A bitmap of two pixels: one fully transparent, one half transparent. *)
Definition glass : image :=
  Image RGBA (2, 1) [Pixel 10 20 30 0; Pixel 200 100 50 128].

(** A run in which a token is at hand, the provider gives [answer], the codec
    decodes [png_text] and the text [QUJD] (the bytes of [ABC]), the imaging
    library opens [png_bytes] as [glass], every file operation succeeds, no
    value other than text gets printed, and files are read as UTF-8 (a PNG
    file, whose first byte is 0x89, does not decode). *)
Definition scenario (answer : http_outcome) : env :=
  {| access_token := Some "ya29.a0";
     post := fun _ => answer;
     a2b_base64 := fun s =>
       if String.eqb s png_text then Some png_bytes
       else if String.eqb s "QUJD" then Some [Byte.x41; Byte.x42; Byte.x43]
       else None;
     uuid4 := "123e4567-e89b-12d3-a456-426614174000";
     now_isoformat := "2025-01-01T12:00:00";
     secure_filename := secure_filename_posix;
     open_fails := fun _ => false;
     remove_fails := fun _ => false;
     Image_open := fun b => if bytes_eqb b png_bytes then Some glass else None;
     to_rgba := fun img => Some (im_data img);
     str_json := fun _ => "";
     decodes := fun f =>
       match f with
       | Blob data => is_utf8 data
       | JsonText _ => true
       | Png _ => false
       end |}.

Definition body_of (prediction : json) : json :=
  JDict [("predictions", JList [prediction])].

Definition entry_for (filename : string) : json :=
  JDict [ ("filename", JStr filename); ("prompt", JStr "a red fox");
          ("type", JStr "generation"); ("created", JStr "2025-01-01T12:00:00") ].

(* ===================================================================== *)
(** * app.py: the gallery, the form endpoint and the start-up              *)
(* ===================================================================== *)

Module AppRoutes.

(** The entry that the directory scan makes for a file; [ctime] gives the
    time of the file's last status change, printed in ISO format. *)
Definition scan_entry (ctime : string -> string) (name : string) : json :=
  JDict [ ("filename", JStr name); ("prompt", JStr "Unknown");
          ("type", JStr "generated"); ("created", JStr (ctime name)) ].

(** [glob('*.png')] with the test on the leading dot.  Every name of the
    directory is a file; the order is that in which the directory yields its
    names, here the order of the map. *)
Definition listed (name : string) : bool :=
  endswith ".png" name && negb (String.prefix "." name).

Definition scan_directory (ctime : string -> string) (fs : gmap string file)
    : list json :=
  map (scan_entry ctime) (List.filter listed (map fst (map_to_list fs))).

(** [get_gallery_images]: the metadata document when it is a JSON text,
    whatever it holds; the scan of the directory when there is no document or
    its text is no JSON.  A document that does not decode raises an error
    that the function does not handle. *)
Definition get_gallery_images (E : env) (ctime : string -> string)
    (fs : gmap string file) : exc json :=
  match fs !! metadata_path with
  | Some f =>
      match json_load E f with
      | Return j => Return j
      | Raise JSONDecodeError | Raise OSError => Return (JList (scan_directory ctime fs))
      | Raise e => Raise e
      end
  | None => Return (JList (scan_directory ctime fs))
  end.

(** [get_gallery]: the body of the answer of [GET /static/generated]. *)
Definition get_gallery (E : env) (ctime : string -> string) (fs : gmap string file)
    : exc json :=
  images ← get_gallery_images E ctime fs;
  Return (JDict [("images", images)]).

(** The start-up block: without a metadata document, one is written from
    the scan; a failure to write it is not handled. *)
Definition main (E : env) (ctime : string -> string) (fs : gmap string file)
    : exc (gmap string file) :=
  match fs !! metadata_path with
  | Some _ => Return fs
  | None =>
      existing_images ← get_gallery_images E ctime fs;
      if open_fails E metadata_path then Raise OSError
      else Return (<[metadata_path := JsonText existing_images]> fs)
  end.

(** [request.form.get(key, default)]: the first value of the field. *)
Definition form_get (form : list (string * string)) (key default : string) : string :=
  match assoc key form with
  | Some v => v
  | None => default
  end.

(** What [handle_generate] hands to the page: the result, and the messages
    flashed with their category. *)
Record page : Type := Page {
  generation_result : App.result;
  flashed : list (message * string)
}.

(** [handle_generate].  The texts are tested for emptiness as Python tests
    them, so the function takes the way values and exceptions print. *)
Definition handle_generate (str_json : json -> string) (str_exn : exn -> string)
    (E : env) (st : state) (form : list (string * string)) : page * state :=
  let prompt := assoc "prompt" form in
  let negative_prompt := assoc "negative_prompt" form in
  let aspect_ratio := form_get form "aspect_ratio" "1:1" in
  let style_preset := form_get form "style_preset" "" in
  let quality := form_get form "quality" "standard" in
  if negb (truthy_str prompt) then
    (Page (App.Error [Text "Prompt is required"])
          [([Text "Prompt is required for generation!"], "error")], st)
  else
    let '(r, st') :=
      App.generate_image_requests E st
        (match prompt with Some p => p | None => "" end) negative_prompt
        (if truthy (JStr style_preset) then Some style_preset else None)
        aspect_ratio quality in
    let flashes :=
      match r with
      | App.Error msg =>
          if negb (String.eqb (render str_json str_exn msg) "")
          then [(Text "Generation failed: " :: msg, "error")] else []
      | App.ImageUrl url =>
          if truthy (JStr url) then [([Text "Image generated successfully!"], "success")]
          else []
      | App.Uncaught _ => []
      end in
    (Page r flashes, st').

End AppRoutes.

(* ===================================================================== *)
(** * The access token                                                    *)
(* ===================================================================== *)

(** A credentials object of the authentication library, as far as the
    scripts look at it: whether it is valid, its token, and whether it has a
    [refresh] method. *)
Record credentials : Type := Credentials {
  valid : bool;
  token : option string;
  has_refresh : bool
}.

(** What the library raises. *)
Inductive auth_error : Type :=
| RefreshError
| DefaultCredentialsError
| OtherAuthError.

(** The library during one call: what [google.auth.default] finds, and what
    [refresh] makes of a credentials object. *)
Record auth : Type := Auth {
  auth_default : credentials + auth_error;
  refresh : credentials -> credentials + auth_error
}.

Module AppAuth.

(** [get_access_token] of app.py, on the cached credentials: the token or
    [None], and the cache after the call. *)
Definition get_access_token (A : auth) (cache : option credentials)
    : option string * option credentials :=
  let finish (c : credentials) :=
    if negb (truthy_str (token c)) then (None, Some c) else (token c, Some c) in
  let fetch :=
    match auth_default A with
    | inr RefreshError => (None, None)
    | inr _ => (None, cache)
    | inl c =>
        if has_refresh c then
          match refresh A c with
          | inl c' => finish c'
          | inr RefreshError => (None, None)
          | inr _ => (None, Some c)
          end
        else finish c
    end in
  match cache with
  | Some c => if negb (valid c) then fetch else finish c
  | None => fetch
  end.

End AppAuth.

Module TextureAuth.

(** [get_access_token] of the texture scripts: no cache, and [refresh] is
    called whether the object has it or not. *)
Definition get_access_token (A : auth) : option string :=
  match auth_default A with
  | inr _ => None
  | inl c =>
      if has_refresh c then
        match refresh A c with
        | inl c' => if negb (truthy_str (token c')) then None else token c'
        | inr _ => None
        end
      else None
  end.

End TextureAuth.

(* ===================================================================== *)
(** * static/blender_texture_addon.py                                     *)
(* ===================================================================== *)

Module Addon.

(** The JSON body that [execute] posts to [/generate_texture] for the
    texture type of the scene. *)
Definition request (texture_type : string) : json :=
  JDict [ ("prompt",
           JStr ("Seamless " ++ texture_type
                 ++ " surface texture, realistic PBR material, suitable for Blender."));
          ("output_filename", JStr ("blender_" ++ texture_type ++ "_texture.png")) ].

End Addon.

(** [data["instances"][0][key]]. *)
Definition instance_field (key : string) (data : json) : option json :=
  match data with
  | JDict d =>
      match assoc "instances" d with
      | Some (JList (JDict i :: _)) => assoc key i
      | _ => None
      end
  | _ => None
  end.

(** The entry that a run of [generate_image_requests] of app.py records for
    the image it saved: the four fields of [save_image_metadata], then the
    three extra parameters. *)
Definition generation_entry (E : env) (prompt : string) (style_preset : option string)
    (aspect_ratio quality : string) : dict :=
  [ ("filename", JStr ("generated_" ++ uuid4 E ++ ".png"));
    ("prompt", JStr prompt); ("type", JStr "generation");
    ("created", JStr (now_isoformat E));
    ("style_preset", App.json_of_option style_preset);
    ("aspect_ratio", JStr aspect_ratio); ("quality", JStr quality) ].

(** Whether a result, if it is an error, begins with a literal text that is
    not empty. *)
Definition begins_with_text (r : App.result) : bool :=
  match r with
  | App.Error (Text s :: _) => negb (String.eqb s "")
  | App.Error _ => false
  | _ => true
  end.

(* ===================================================================== *)
(** * The texture endpoint from the request on                            *)
(* ===================================================================== *)

(** What [request.get_json()] finds in the request: the parsed body, or a
    body that the framework refuses itself, ending the request with an error
    status of its own (400 for a body that is no JSON text) before any line
    of the view function runs.  Where the framework hands over [None]
    instead, the body is [Parsed JNull]. *)
Inductive request_json : Type :=
| Parsed (data : json)
| Unparsed (code : Z).

(** The answer that leaves the server: the one the view function gives, or
    the framework's error page. *)
Inductive http_answer : Type :=
| Answer (r : texture_response)
| ErrorPage (code : Z).

(** The status of an answer: 200 with a file path, the status given with an
    error, 500 for an exception that leaves the view function. *)
Definition status_of (a : http_answer) : Z :=
  match a with
  | Answer (FilePath _) => 200
  | Answer (Refused _ code) => code
  | Answer (ServerError _) => 500
  | ErrorPage code => code
  end.

(** [/generate_texture] of either script, [view] being its function from the
    parsed body on. *)
Definition serve (view : env -> state -> json -> texture_response * state)
    (E : env) (st : state) (body : request_json) : http_answer * state :=
  match body with
  | Parsed data => let '(r, st') := view E st data in (Answer r, st')
  | Unparsed code => (ErrorPage code, st)
  end.

(** A clock for the samples. *)
Definition sample_ctime (name : string) : string := "2025-01-01T12:00:00".

Example secure_filename_samples :
  secure_filename_posix "a.png" = "a.png" /\
  secure_filename_posix "a b.png" = "a_b.png" /\
  secure_filename_posix "../../etc/passwd" = "etc_passwd" /\
  secure_filename_posix "__" = "" /\
  secure_filename_posix "metadata.json" = "metadata.json".
Proof. repeat split; reflexivity. Qed.

(* ===================================================================== *)
(** * Dictionaries and strings                                            *)
(* ===================================================================== *)

(** A lookup in a literal table tests the key against one row after the
    other: [table_cases] follows the tests as booleans, [table_rows key tac]
    as equations, closing each row with [tac]. *)
Ltac table_cases :=
  repeat (match goal with
          | |- context [String.eqb ?a ?b] => destruct (String.eqb a b)
          end; try reflexivity).

Ltac table_rows key tac :=
  repeat (match goal with
          | |- context [String.eqb key ?b] =>
              destruct (String.eqb_spec key b) as [->|]; [tac |]
          end).


Lemma assoc_dict_set_eq k v d : assoc k (dict_set k v d) = Some v.
Proof.
  induction d as [|[k0 v0] d IH]; simpl.
  - by rewrite String.eqb_refl.
  - destruct (String.eqb k k0) eqn:Hk; simpl;
      [by rewrite String.eqb_refl | by rewrite Hk].
Qed.

Lemma assoc_dict_set_ne k j v d :
  k <> j -> assoc j (dict_set k v d) = assoc j d.
Proof.
  intros Hne. induction d as [|[k0 v0] d IH]; simpl.
  - destruct (String.eqb_spec j k); [congruence | done].
  - destruct (String.eqb_spec k k0) as [->|Hk0]; simpl.
    + destruct (String.eqb_spec j k0); [congruence | done].
    + destruct (String.eqb_spec j k0); [done | exact IH].
Qed.

Create Rewrite HintDb dict.
#[local] Hint Rewrite assoc_dict_set_eq : dict.
#[local] Hint Rewrite assoc_dict_set_ne using discriminate : dict.

Lemma prefix_app p s : String.prefix p (p ++ s) = true.
Proof.
  induction p as [|c p IH]; simpl; [by destruct s |].
  destruct (ascii_dec c c); [exact IH | congruence].
Qed.

Lemma contains_prefix p s : String.prefix p s = true -> contains p s = true.
Proof. intros H. destruct s; simpl in *; rewrite H; done. Qed.

Lemma contains_app_r p a s : contains p s = true -> contains p (a ++ s) = true.
Proof.
  intros H. induction a as [|c a IH]; simpl; [done |].
  rewrite IH. apply orb_true_r.
Qed.

Lemma append_empty_r (s : string) : s ++ "" = s.
Proof. induction s; simpl; congruence. Qed.

Lemma contains_suffix p a : contains p (a ++ p) = true.
Proof.
  apply contains_app_r, contains_prefix.
  rewrite <- (append_empty_r p) at 2. apply prefix_app.
Qed.

Lemma lower_app a b : lower (a ++ b) = lower a ++ lower b.
Proof. induction a; simpl; congruence. Qed.

Lemma append_assoc (a b c : string) : (a ++ b) ++ c = a ++ b ++ c.
Proof. induction a; simpl; congruence. Qed.

(* ===================================================================== *)
(** * The request builder of app.py                                       *)
(* ===================================================================== *)

Lemma parameter_build_request key prompt negative_prompt style_preset aspect_ratio quality :
  parameter key (App.build_request prompt negative_prompt style_preset aspect_ratio quality)
  = assoc key (App.build_parameters style_preset aspect_ratio quality).
Proof. reflexivity. Qed.

Lemma aspect_table aspect_ratio :
  match assoc aspect_ratio App.aspect_dimensions with
  | Some hw => hw
  | None => (1024, 1024)
  end = documented_dimensions aspect_ratio.
Proof.
  unfold documented_dimensions, App.aspect_dimensions, assoc. table_cases.
Qed.

Lemma build_parameters_size style_preset aspect_ratio quality :
  let p := App.build_parameters style_preset aspect_ratio quality in
  assoc "height" p = Some (JInt (fst (documented_dimensions aspect_ratio))) /\
  assoc "width" p = Some (JInt (snd (documented_dimensions aspect_ratio))).
Proof.
  unfold App.build_parameters. rewrite <- aspect_table.
  set (q := match assoc quality App.quality_params with
            | Some q => _
            | None => _
            end).
  destruct (App.preset_lookup style_preset App.guidance_scales) as [g|];
    destruct (assoc aspect_ratio App.aspect_dimensions) as [[h w]|]; cbv zeta;
    autorewrite with dict; done.
Qed.

(** C1.  Whatever the ratio string (and the other inputs), the request body
    carries the documented height and width: the pair of the table for each
    of the six ratios, 1024 by 1024 for any other string.  The builder is a
    total function, so no input makes it fail. *)
Theorem aspect_ratio_sets_height_and_width
    (prompt : string) (negative_prompt style_preset : option string)
    (aspect_ratio quality : string) :
  let data := App.build_request prompt negative_prompt style_preset aspect_ratio quality in
  parameter "height" data = Some (JInt (fst (documented_dimensions aspect_ratio))) /\
  parameter "width" data = Some (JInt (snd (documented_dimensions aspect_ratio))).
Proof.
  cbv zeta. rewrite !parameter_build_request. apply build_parameters_size.
Qed.

(** The documented table, row by row, and its default. *)
Lemma documented_dimensions_rows :
  documented_dimensions "1:1" = (1024, 1024) /\
  documented_dimensions "16:9" = (576, 1024) /\
  documented_dimensions "9:16" = (1024, 576) /\
  documented_dimensions "4:3" = (768, 1024) /\
  documented_dimensions "3:4" = (1024, 768) /\
  documented_dimensions "21:9" = (448, 1024).
Proof. repeat split; reflexivity. Qed.

Lemma documented_dimensions_other aspect_ratio :
  ~ In aspect_ratio ["1:1"; "16:9"; "9:16"; "4:3"; "3:4"; "21:9"] ->
  documented_dimensions aspect_ratio = (1024, 1024).
Proof.
  intros Hn. unfold documented_dimensions.
  table_rows aspect_ratio ltac:(exfalso; apply Hn; simpl; tauto).
  reflexivity.
Qed.

(** The text under ["prompt"] in the request body. *)
Lemma instance_prompt_build_request prompt negative_prompt style_preset aspect_ratio quality :
  instance_prompt
    (App.build_request prompt negative_prompt style_preset aspect_ratio quality)
  = Some (match App.preset_lookup style_preset App.guidance_scales,
                App.preset_lookup style_preset App.style_prefixes with
          | Some _, Some prefix =>
              if contains (lower prefix) (lower prompt) then prompt
              else prompt ++ ", " ++ prefix
          | _, _ => prompt
          end).
Proof.
  unfold App.build_request, App.build_instance.
  destruct (App.preset_lookup style_preset App.guidance_scales);
    destruct (App.preset_lookup style_preset App.style_prefixes);
    try destruct (contains _ _);
    destruct negative_prompt as [n|]; try destruct (truthy (JStr n)); reflexivity.
Qed.

(** Every preset that has a prefix has a guidance scale. *)
Lemma prefix_has_scale style prefix :
  assoc style App.style_prefixes = Some prefix ->
  exists g, assoc style App.guidance_scales = Some g.
Proof.
  unfold App.style_prefixes, assoc at 1.
  table_rows style ltac:(intros _; eexists; reflexivity).
  discriminate.
Qed.

(** C5.  For a preset with a known prefix, the prompt of the request body is
    the prompt itself when the prefix already occurs in it (compared in lower
    case), and the prompt, a comma and a blank, and the prefix otherwise;
    building again from the prompt so obtained leaves it as it is. *)
Theorem style_prefix_appended_once
    (prompt : string) (negative_prompt : option string) (style prefix : string)
    (aspect_ratio quality : string) :
  assoc style App.style_prefixes = Some prefix ->
  let build p :=
    instance_prompt (App.build_request p negative_prompt (Some style) aspect_ratio quality) in
  let once :=
    if contains (lower prefix) (lower prompt) then prompt else prompt ++ ", " ++ prefix in
  build prompt = Some once /\ build once = Some once.
Proof.
  intros Hp. cbv zeta.
  destruct (prefix_has_scale _ _ Hp) as [g Hg].
  rewrite !instance_prompt_build_request.
  cbv beta iota delta [App.preset_lookup]. rewrite Hp, Hg.
  split; [reflexivity |].
  destruct (contains (lower prefix) (lower prompt)) eqn:Hc.
  - by rewrite Hc.
  - rewrite <- append_assoc, lower_app, contains_suffix. reflexivity.
Qed.

Lemma style_prefix_appended_once_witness :
  assoc "cinematic" App.style_prefixes = Some "cinematic lighting" /\
  instance_prompt (App.build_request "a red fox" None (Some "cinematic") "1:1" "standard")
    = Some "a red fox, cinematic lighting" /\
  instance_prompt
    (App.build_request "a red fox, cinematic lighting" None (Some "cinematic") "1:1" "standard")
    = Some "a red fox, cinematic lighting".
Proof.
  split; [reflexivity |].
  exact (style_prefix_appended_once "a red fox" None "cinematic" "cinematic lighting"
           "1:1" "standard" eq_refl).
Defined.

(** C6.  The prompt "a red fox" with ratio 16:9, quality hd and preset
    cinematic gives height 576, width 1024, 50 steps, guidance scale 7.0 and
    the prompt "a red fox, cinematic lighting", whatever the negative prompt. *)
Theorem red_fox_example (negative_prompt : option string) :
  let data :=
    App.build_request "a red fox" negative_prompt (Some "cinematic") "16:9" "hd" in
  parameter "height" data = Some (JInt 576) /\
  parameter "width" data = Some (JInt 1024) /\
  parameter "steps" data = Some (JInt 50) /\
  parameter "guidance_scale" data = Some (JFloat 7.0%float) /\
  instance_prompt data = Some "a red fox, cinematic lighting".
Proof.
  cbv zeta. repeat split; try reflexivity.
  destruct negative_prompt as [n|]; [| reflexivity].
  unfold App.build_request, App.build_instance.
  destruct (truthy (JStr n)); reflexivity.
Qed.

(* ===================================================================== *)
(** * What is sent to the provider                                        *)
(* ===================================================================== *)

Lemma build_parameters_sampleCount style_preset aspect_ratio quality :
  assoc "sampleCount" (App.build_parameters style_preset aspect_ratio quality)
  = Some (JInt 1).
Proof.
  unfold App.build_parameters.
  destruct (App.preset_lookup style_preset App.guidance_scales) as [g|];
    destruct (assoc aspect_ratio App.aspect_dimensions) as [[h w]|];
    autorewrite with dict; unfold App.quality_params, assoc at 2; table_cases.
Qed.

(** [generate_image_requests] of app.py posts its request body once, or
    nothing at all when no token is at hand. *)
Lemma app_sent E st prompt negative_prompt style_preset aspect_ratio quality :
  sent (snd (App.generate_image_requests E st prompt negative_prompt style_preset
               aspect_ratio quality))
  = (sent st ++
     if truthy_str (access_token E)
     then [App.build_request prompt negative_prompt style_preset aspect_ratio quality]
     else [])%list.
Proof.
  unfold App.generate_image_requests.
  destruct (truthy_str (access_token E)); simpl; [| by rewrite app_nil_r].
  destruct (post E _) as [[body|]| | |]; try reflexivity.
  by destruct (App.handle_response _ _ _ _ _ _ _).
Qed.

Lemma texture_generator_sent E st prompt output_filename :
  sent (snd (TextureGenerator.generate_image_requests E st prompt output_filename))
  = (sent st ++ if truthy_str (access_token E) then [texture_request prompt] else [])%list.
Proof.
  unfold TextureGenerator.generate_image_requests.
  destruct (truthy_str (access_token E)); simpl; [| by rewrite app_nil_r].
  destruct (post E _) as [[body|]| | |]; try reflexivity.
  by destruct (TextureGenerator.handle_response _ _ _ _).
Qed.

Lemma code_sent E st prompt output_filename :
  sent (snd (Code.generate_image_requests E st prompt output_filename))
  = (sent st ++ if truthy_str (access_token E) then [texture_request prompt] else [])%list.
Proof.
  unfold Code.generate_image_requests.
  destruct (truthy_str (access_token E)); simpl; [| by rewrite app_nil_r].
  destruct (post E _) as [[body|]| | |]; try reflexivity.
  by destruct (Code.handle_response _ _ _ _).
Qed.

(** C7, as the code has it.  Every request body that app.py builds, and so
    every body it posts, has [sampleCount] equal to 1; the request body of the
    two texture scripts has an empty [parameters] object and no [sampleCount]. *)
Theorem sampleCount_is_one_in_app
    (E : env) (st : state) (prompt : string) (negative_prompt style_preset : option string)
    (aspect_ratio quality : string) :
  parameter "sampleCount"
    (App.build_request prompt negative_prompt style_preset aspect_ratio quality)
  = Some (JInt 1) /\
  (exists posted,
     sent (snd (App.generate_image_requests E st prompt negative_prompt style_preset
                  aspect_ratio quality)) = (sent st ++ posted)%list /\
     Forall (fun data => parameter "sampleCount" data = Some (JInt 1)) posted) /\
  (forall p : json,
     parameter "sampleCount" (texture_request p) = None /\
     texture_request p = JDict [ ("instances", JList [JDict [("prompt", p)]]);
                                 ("parameters", JDict []) ]).
Proof.
  assert (H1 : parameter "sampleCount"
                 (App.build_request prompt negative_prompt style_preset aspect_ratio quality)
               = Some (JInt 1))
    by (rewrite parameter_build_request; apply build_parameters_sampleCount).
  split; [exact H1 |]. split; [| by intros p].
  eexists. split; [apply app_sent |].
  destruct (truthy_str (access_token E)); repeat constructor. exact H1.
Qed.

(** C7, the failing case: a texture request that ends well posts one body,
    and that body has no [sampleCount]. *)
Lemma texture_request_without_sampleCount :
  let E := scenario (HttpOk (Some (body_of (JDict [("bytesBase64Encoded", JStr png_text)])))) in
  let request := JDict [("prompt", JStr "oak wood"); ("output_filename", JStr "oak.png")] in
  let run := TextureGenerator.generate_texture E (State ∅ []) request in
  fst run = FilePath "oak.png" /\
  map (parameter "sampleCount") (sent (snd run)) = [None].
Proof. vm_compute. split; reflexivity. Qed.

(** What [/generate_texture] posts for a request that passes the checks. *)
Lemma texture_generator_endpoint_sent E st data prompt name :
  validate data = Return (inr (prompt, name)) ->
  sent (snd (TextureGenerator.generate_texture E st data))
  = (sent st ++ if truthy_str (access_token E)
                then [texture_request (JStr (py_str E prompt ++ TextureGenerator.suffix)%string)]
                else [])%list.
Proof.
  intros Hv. unfold TextureGenerator.generate_texture. rewrite Hv.
  pose proof (texture_generator_sent E st
                (JStr (py_str E prompt ++ TextureGenerator.suffix)) name) as Hs.
  by destruct (TextureGenerator.generate_image_requests _ _ _ _).
Qed.

Lemma code_endpoint_sent E st data prompt name :
  validate data = Return (inr (prompt, name)) ->
  sent (snd (Code.generate_texture E st data))
  = (sent st ++ if truthy_str (access_token E) then [texture_request prompt] else [])%list.
Proof.
  intros Hv. unfold Code.generate_texture. rewrite Hv.
  pose proof (code_sent E st prompt name) as Hs.
  by destruct (Code.generate_image_requests _ _ _ _).
Qed.

(** What the checks of [/generate_texture] let through: a request with a
    text prompt that is not empty and a file name that ends in [.png] and
    holds none of the forbidden characters. *)
Lemma validate_accepts (d : dict) (prompt name : string) :
  assoc "prompt" d = Some (JStr prompt) -> prompt <> "" ->
  assoc "output_filename" d = Some (JStr name) ->
  endswith ".png" name = true -> any_char_in forbidden_chars name = false ->
  validate (JDict d) = Return (inr (JStr prompt, name)).
Proof.
  intros Hp Hne Hn He Hc.
  unfold validate, mbind, exc_bind, py_get, truthy. rewrite Hp, Hn, He, Hc.
  destruct (String.eqb_spec prompt ""); [done |].
  destruct (String.eqb_spec name "") as [->|]; [discriminate | reflexivity].
Qed.

(** C10, as the code has it.  For a request that passes the checks of
    [/generate_texture] while a token is at hand, texture_generator.py posts
    exactly one body, whose prompt is the caller's prompt followed by the
    fixed suffix; code.py posts the caller's prompt as it came.  In both the
    caller's prompt is a prefix of the prompt that is posted. *)
Theorem texture_prompt_posted
    (E : env) (st : state) (data : json) (prompt name : string) :
  validate data = Return (inr (JStr prompt, name)) ->
  truthy_str (access_token E) = true ->
  (exists body,
     sent (snd (TextureGenerator.generate_texture E st data)) = (sent st ++ [body])%list /\
     instance_prompt body = Some (prompt ++ TextureGenerator.suffix) /\
     String.prefix prompt (prompt ++ TextureGenerator.suffix) = true) /\
  (exists body,
     sent (snd (Code.generate_texture E st data)) = (sent st ++ [body])%list /\
     instance_prompt body = Some prompt /\
     String.prefix prompt prompt = true).
Proof.
  intros Hv Ht. split; eexists.
  - rewrite (texture_generator_endpoint_sent _ _ _ _ _ Hv), Ht.
    split; [reflexivity |]. split; [reflexivity | apply prefix_app].
  - rewrite (code_endpoint_sent _ _ _ _ _ Hv), Ht.
    split; [reflexivity |]. split; [reflexivity |].
    rewrite <- (append_empty_r prompt) at 2. apply prefix_app.
Qed.

Lemma texture_prompt_posted_witness :
  let E := scenario (HttpOk (Some (body_of (JDict [("bytesBase64Encoded", JStr png_text)])))) in
  let request := JDict [("prompt", JStr "oak wood"); ("output_filename", JStr "oak.png")] in
  (exists body,
     sent (snd (TextureGenerator.generate_texture E (State ∅ []) request)) = ([] ++ [body])%list /\
     instance_prompt body = Some ("oak wood" ++ TextureGenerator.suffix) /\
     String.prefix "oak wood" ("oak wood" ++ TextureGenerator.suffix) = true) /\
  (exists body,
     sent (snd (Code.generate_texture E (State ∅ []) request)) = ([] ++ [body])%list /\
     instance_prompt body = Some "oak wood" /\
     String.prefix "oak wood" "oak wood" = true).
Proof.
  exact (texture_prompt_posted
           (scenario (HttpOk (Some (body_of (JDict [("bytesBase64Encoded", JStr png_text)])))))
           (State ∅ [])
           (JDict [("prompt", JStr "oak wood"); ("output_filename", JStr "oak.png")])
           "oak wood" "oak.png" eq_refl eq_refl).
Defined.

(** C10, the failing case: the endpoint of code.py posts the caller's prompt
    without the suffix. *)
Lemma code_posts_prompt_verbatim :
  let E := scenario (HttpOk (Some (body_of (JDict [("bytesBase64Encoded", JStr png_text)])))) in
  let request := JDict [("prompt", JStr "oak wood"); ("output_filename", JStr "oak.png")] in
  let run := Code.generate_texture E (State ∅ []) request in
  fst run = FilePath "oak.png" /\
  map instance_prompt (sent (snd run)) = [Some "oak wood"].
Proof. vm_compute. split; reflexivity. Qed.

(* ===================================================================== *)
(** * Flattening onto white                                               *)
(* ===================================================================== *)

(** Over an opaque pixel, the composite is opaque whatever the alpha of the
    pixel laid on it. *)
Lemma composite_pixel_opaque dst src :
  alpha dst = 255 -> alpha (composite_pixel dst src) = 255.
Proof.
  intros Hd. unfold composite_pixel.
  destruct (alpha src =? 0)%Z; [exact Hd |]. simpl. rewrite Hd.
  replace (alpha src * 255 + 255 * (255 - alpha src) + 128) with 65153 by lia.
  reflexivity.
Qed.

Lemma composite_on_white_opaque n data :
  Forall (fun p => alpha p = 255)
         (zip_pixels composite_pixel (repeat (Pixel 255 255 255 255) n) data).
Proof.
  revert data. induction n as [|n IH]; intros [|p data]; simpl; constructor.
  - by apply composite_pixel_opaque.
  - apply IH.
Qed.

Lemma convert_RGB_opaque img : fully_opaque (convert_RGB img) = true.
Proof.
  unfold fully_opaque, alpha_band, convert_RGB; simpl.
  induction (im_data img); simpl; auto.
Qed.

(** What [process_image] returns when it returns: an RGB bitmap, opaque
    everywhere, obtained by dropping the alpha band of a composite whose alpha
    was 255 at every pixel already. *)
Lemma process_image_opaque E image_b64_data img :
  TextureGenerator.process_image E image_b64_data = Return img ->
  im_mode img = RGB /\ fully_opaque img = true /\
  exists composite,
    img = convert_RGB composite /\ Forall (fun p => alpha p = 255) (im_data composite).
Proof.
  unfold TextureGenerator.process_image. unfold mbind, exc_bind.
  destruct (b64decode E image_b64_data) as [image_bytes|]; [| discriminate].
  destruct (Image_open E image_bytes) as [image|]; [| discriminate].
  set (converted := if negb (mode_eqb (im_mode image) RGBA) then _ else _).
  destruct converted as [rgba|]; [| discriminate].
  unfold alpha_composite.
  destruct (_ && _); [| discriminate].
  intros [= <-]. split; [reflexivity |]. split; [apply convert_RGB_opaque |].
  eexists. split; [reflexivity |]. apply composite_on_white_opaque.
Qed.

(* ===================================================================== *)
(** * Which files a run touches                                           *)
(* ===================================================================== *)

Lemma texture_save_image_spec E fs image_b64_data output_filename :
  let run := TextureGenerator.save_image E fs image_b64_data output_filename in
  match fst run with
  | Saved name =>
      name = output_filename /\
      exists img, TextureGenerator.process_image E image_b64_data = Return img /\
                  snd run = <[output_filename := Png img]> fs
  | _ => snd run = fs
  end.
Proof.
  unfold TextureGenerator.save_image.
  destruct (TextureGenerator.process_image E image_b64_data) as [img|]; simpl; [| done].
  destruct (open_fails E output_filename); simpl; [done |]. eauto.
Qed.

Lemma texture_handle_response_spec E fs response_json output_filename :
  let run := TextureGenerator.handle_response E fs response_json output_filename in
  match fst run with
  | Saved name =>
      name = output_filename /\
      exists image_b64_data img,
        TextureGenerator.process_image E image_b64_data = Return img /\
        snd run = <[output_filename := Png img]> fs
  | _ => snd run = fs
  end.
Proof.
  unfold TextureGenerator.handle_response.
  destruct (py_in "error" response_json) as [[|]|]; simpl; try done.
  - by destruct (_ ≫= _).
  - destruct (TextureGenerator.extract_image_data response_json) as [d|e]; simpl;
      [| by destruct (is_shape_error e)].
    pose proof (texture_save_image_spec E fs d output_filename) as Hs.
    destruct (TextureGenerator.save_image _ _ _ _) as [[name|log|e] fs']; simpl in *; try done.
    destruct Hs as [-> (img & Hp & ->)]. eauto.
Qed.

Lemma texture_generator_spec E st prompt output_filename :
  let run := TextureGenerator.generate_image_requests E st prompt output_filename in
  match fst run with
  | Saved name =>
      name = output_filename /\
      exists image_b64_data img,
        TextureGenerator.process_image E image_b64_data = Return img /\
        files (snd run) = <[output_filename := Png img]> (files st)
  | _ => files (snd run) = files st
  end.
Proof.
  unfold TextureGenerator.generate_image_requests.
  destruct (truthy_str (access_token E)); simpl; [| done].
  destruct (post E _) as [[body|]| | |]; simpl; try done.
  pose proof (texture_handle_response_spec E (files st) body output_filename) as Hs.
  by destruct (TextureGenerator.handle_response _ _ _ _) as [[name|log|e] fs'].
Qed.

Lemma code_handle_response_spec E fs response_json output_filename :
  let run := Code.handle_response E fs response_json output_filename in
  match fst run with
  | Saved name =>
      name = output_filename /\
      exists image_bytes, snd run = <[output_filename := Blob image_bytes]> fs
  | _ => snd run = fs
  end.
Proof.
  unfold Code.handle_response.
  destruct (py_in "error" response_json) as [[|]|]; simpl; try done.
  - by destruct (_ ≫= _).
  - destruct (Code.extract_image_data response_json) as [d|e]; simpl;
      [| by destruct (is_shape_error e)].
    unfold Code.save_image.
    destruct (b64decode E d) as [b|[]]; simpl; try done.
    destruct (open_fails E output_filename); simpl; [done |]. eauto.
Qed.

Lemma code_spec E st prompt output_filename :
  let run := Code.generate_image_requests E st prompt output_filename in
  match fst run with
  | Saved name =>
      name = output_filename /\
      exists image_bytes,
        files (snd run) = <[output_filename := Blob image_bytes]> (files st)
  | _ => files (snd run) = files st
  end.
Proof.
  unfold Code.generate_image_requests.
  destruct (truthy_str (access_token E)); simpl; [| done].
  destruct (post E _) as [[body|]| | |]; simpl; try done.
  pose proof (code_handle_response_spec E (files st) body output_filename) as Hs.
  by destruct (Code.handle_response _ _ _ _) as [[name|log|e] fs'].
Qed.

Lemma save_image_metadata_other E fs filename prompt operation_type extra_params name :
  name <> metadata_path ->
  snd (App.save_image_metadata E fs filename prompt operation_type extra_params) !! name
  = fs !! name.
Proof.
  intros Hn. unfold App.save_image_metadata. cbv zeta.
  repeat case_match; simpl; try done; by rewrite lookup_insert_ne.
Qed.

Lemma generated_name_not_metadata u : ("generated_" ++ u ++ ".png")%string <> metadata_path.
Proof. discriminate. Qed.


Lemma check_predictions_error response_json r :
  App.check_predictions response_json = Return (Some r) ->
  exists msg, r = App.Error msg.
Proof.
  unfold App.check_predictions, mbind, exc_bind.
  repeat case_match; intros [= <-] || discriminate; eauto.
Qed.






(* ===================================================================== *)
(** * Reading the provider's answer                                       *)
(* ===================================================================== *)

Lemma app_check_passes B p rest :
  assoc "predictions" B = Some (JList (p :: rest)) ->
  App.check_predictions (JDict B) = Return None.
Proof. intros H. unfold App.check_predictions; simpl. rewrite H. reflexivity. Qed.

Lemma app_extract_first B p rest :
  assoc "predictions" B = Some (JList (p :: rest)) ->
  App.extract_image_data (JDict B) = py_getitem p "bytesBase64Encoded".
Proof. intros H. unfold App.extract_image_data; simpl. rewrite H. reflexivity. Qed.

Lemma code_extract_first B p rest :
  assoc "predictions" B = Some (JList (p :: rest)) ->
  Code.extract_image_data (JDict B) = py_getitem p "bytesBase64Encoded".
Proof. intros H. unfold Code.extract_image_data; simpl. rewrite H. reflexivity. Qed.

Lemma texture_extract_first B p rest :
  assoc "predictions" B = Some (JList (p :: rest)) ->
  TextureGenerator.extract_image_data (JDict B) =
  match p with
  | JDict d =>
      match assoc "bytesBase64Encoded" d, assoc "imageBytes" d, assoc "image" d with
      | Some v, _, _ => Return v
      | None, Some v, _ => Return v
      | None, None, Some (JDict i) =>
          Return (match assoc "bytesBase64Encoded" i with Some v => v | None => JNull end)
      | None, None, _ => Return p
      end
  | _ => Return p
  end.
Proof.
  intros H. unfold TextureGenerator.extract_image_data; simpl. rewrite H. reflexivity.
Qed.

Lemma texture_extract_missing B :
  assoc "predictions" B = None \/
  (exists q, assoc "predictions" B = Some q /\ truthy q = false) ->
  TextureGenerator.extract_image_data (JDict B) = Raise KeyError.
Proof.
  unfold TextureGenerator.extract_image_data; simpl.
  intros [H | (q & H & Hq)]; rewrite H; simpl; [done | by rewrite Hq].
Qed.

(** A first prediction without the field is a shape mismatch for the
    one-layout extractors. *)
Lemma getitem_shape_error p :
  (forall d, p = JDict d -> assoc "bytesBase64Encoded" d = None) ->
  exists e, py_getitem p "bytesBase64Encoded" = Raise e /\ is_shape_error e = true.
Proof.
  intros H. destruct p; simpl; eauto.
  rewrite (H d eq_refl). eauto.
Qed.

Lemma messages_differ str_json str_exn e e' :
  render str_json str_exn (App.decode_failure e)
    <> render str_json str_exn App.parse_failure /\
  render str_json str_exn (TextureGenerator.processing_failure e)
    <> render str_json str_exn (TextureGenerator.extraction_failure e') /\
  render str_json str_exn (Code.decode_failure e)
    <> render str_json str_exn (Code.extraction_failure e').
Proof. repeat split; simpl; discriminate. Qed.

(** C2, as the code has it.  Let the body be an object without an ["error"]
    field whose ["predictions"] is a list with first element [p].
    - texture_generator.py takes the image data from [p] in four layouts: the
      field [bytesBase64Encoded] of [p]; failing that the field [imageBytes];
      failing both the field [bytesBase64Encoded] of the object under
      ["image"]; and [p] itself when [p] is text.  With ["predictions"]
      absent or empty it logs the extraction failure.
    - app.py and code.py take the data from the field [bytesBase64Encoded] of
      [p] only; any other [p] is reported as the shape mismatch.
    - A base64 failure is reported by each script with a message that differs
      from its shape-mismatch message, however values and exceptions print. *)
Theorem extractor_layouts
    (E : env) (fs : gmap string file) (B : dict) (p : json) (rest : list json)
    (prompt : string) (style_preset : option string)
    (aspect_ratio quality output_filename : string) :
  assoc "predictions" B = Some (JList (p :: rest)) ->
  assoc "error" B = None ->
  let tex := TextureGenerator.handle_response E fs (JDict B) output_filename in
  let app := App.handle_response E fs prompt style_preset aspect_ratio quality (JDict B) in
  let code := Code.handle_response E fs (JDict B) output_filename in
  (* the layouts of texture_generator.py *)
  (forall d v, p = JDict d -> assoc "bytesBase64Encoded" d = Some v ->
     tex = TextureGenerator.save_image E fs v output_filename) /\
  (forall d v, p = JDict d -> assoc "bytesBase64Encoded" d = None ->
     assoc "imageBytes" d = Some v ->
     tex = TextureGenerator.save_image E fs v output_filename) /\
  (forall d i v, p = JDict d -> assoc "bytesBase64Encoded" d = None ->
     assoc "imageBytes" d = None -> assoc "image" d = Some (JDict i) ->
     assoc "bytesBase64Encoded" i = Some v ->
     tex = TextureGenerator.save_image E fs v output_filename) /\
  (forall s, p = JStr s ->
     tex = TextureGenerator.save_image E fs (JStr s) output_filename) /\
  (forall B', assoc "error" B' = None ->
     assoc "predictions" B' = None \/
     (exists q, assoc "predictions" B' = Some q /\ truthy q = false) ->
     TextureGenerator.handle_response E fs (JDict B') output_filename
     = (Aborted (TextureGenerator.extraction_failure KeyError), fs)) /\
  (* the one layout of app.py and code.py *)
  (forall d v, p = JDict d -> assoc "bytesBase64Encoded" d = Some v ->
     app = App.save_generated E fs prompt style_preset aspect_ratio quality v /\
     code = Code.save_image E fs v output_filename) /\
  ((forall d, p = JDict d -> assoc "bytesBase64Encoded" d = None) ->
     app = (App.Error App.parse_failure, fs) /\
     exists e, code = (Aborted (Code.extraction_failure e), fs)) /\
  (* a base64 failure *)
  (forall v, b64decode E v = Raise BinasciiError ->
     App.save_generated E fs prompt style_preset aspect_ratio quality v
     = (App.Error (App.decode_failure BinasciiError), fs) /\
     TextureGenerator.save_image E fs v output_filename
     = (Aborted (TextureGenerator.processing_failure BinasciiError), fs) /\
     Code.save_image E fs v output_filename
     = (Aborted (Code.decode_failure BinasciiError), fs)) /\
  (forall str_json str_exn e e',
     render str_json str_exn (App.decode_failure e)
       <> render str_json str_exn App.parse_failure /\
     render str_json str_exn (TextureGenerator.processing_failure e)
       <> render str_json str_exn (TextureGenerator.extraction_failure e') /\
     render str_json str_exn (Code.decode_failure e)
       <> render str_json str_exn (Code.extraction_failure e')).
Proof.
  intros Hp He. cbv zeta.
  assert (Htex : TextureGenerator.handle_response E fs (JDict B) output_filename
                 = match TextureGenerator.extract_image_data (JDict B) with
                   | Raise e => if is_shape_error e
                                then (Aborted (TextureGenerator.extraction_failure e), fs)
                                else (Crashed e, fs)
                   | Return v => TextureGenerator.save_image E fs v output_filename
                   end)
    by (unfold TextureGenerator.handle_response; simpl; by rewrite He).
  assert (Hcode : Code.handle_response E fs (JDict B) output_filename
                  = match py_getitem p "bytesBase64Encoded" with
                    | Raise e => if is_shape_error e
                                 then (Aborted (Code.extraction_failure e), fs)
                                 else (Crashed e, fs)
                    | Return v => Code.save_image E fs v output_filename
                    end)
    by (unfold Code.handle_response; simpl; rewrite He;
        by rewrite (code_extract_first _ _ _ Hp)).
  assert (Happ : App.handle_response E fs prompt style_preset aspect_ratio quality (JDict B)
                 = match py_getitem p "bytesBase64Encoded" with
                   | Raise e => if is_shape_error e then (App.Error App.parse_failure, fs)
                                else (App.Error (App.unexpected e), fs)
                   | Return v =>
                       App.save_generated E fs prompt style_preset aspect_ratio quality v
                   end)
    by (unfold App.handle_response;
        by rewrite (app_check_passes _ _ _ Hp), (app_extract_first _ _ _ Hp)).
  rewrite Htex, Hcode, Happ, (texture_extract_first _ _ _ Hp).
  repeat apply conj.
  - intros d v -> Hv. by rewrite Hv.
  - intros d v -> Hn Hv. by rewrite Hn, Hv.
  - intros d i v -> Hn Hn' Hi Hv. by rewrite Hn, Hn', Hi, Hv.
  - by intros s ->.
  - intros B' He' Hm. unfold TextureGenerator.handle_response; simpl.
    by rewrite He', (texture_extract_missing _ Hm).
  - intros d v -> Hv; simpl; by rewrite Hv.
  - intros Hn. destruct (getitem_shape_error p Hn) as (e & -> & ->). eauto.
  - intros v Hv. unfold App.save_generated, TextureGenerator.save_image,
      TextureGenerator.process_image, Code.save_image; simpl. by rewrite Hv.
  - intros. apply messages_differ.
Qed.

Lemma extractor_layouts_witness :
  let E := scenario HttpTimeout in
  let B := [("predictions", JList [JDict [("image", JDict [("bytesBase64Encoded", JStr png_text)])]])] in
  assoc "predictions" B
  = Some (JList [JDict [("image", JDict [("bytesBase64Encoded", JStr png_text)])]]) /\
  TextureGenerator.handle_response E ∅ (JDict B) "oak.png"
  = TextureGenerator.save_image E ∅ (JStr png_text) "oak.png" /\
  fst (TextureGenerator.save_image E ∅ (JStr png_text) "oak.png") = Saved "oak.png" /\
  App.handle_response E ∅ "oak wood" None "1:1" "standard" (JDict B)
  = (App.Error App.parse_failure, ∅).
Proof.
  pose proof (extractor_layouts (scenario HttpTimeout) ∅
                [("predictions", JList [JDict [("image", JDict [("bytesBase64Encoded", JStr png_text)])]])]
                (JDict [("image", JDict [("bytesBase64Encoded", JStr png_text)])]) []
                "oak wood" None "1:1" "standard" "oak.png" eq_refl eq_refl)
    as (_ & _ & H3 & _ & _ & _ & H7 & _).
  split; [reflexivity |]. split; [| split; [reflexivity |]].
  - exact (H3 _ _ (JStr png_text) eq_refl eq_refl eq_refl eq_refl eq_refl).
  - apply H7. intros d [= <-]. reflexivity.
Defined.

(** C2, the failing case: app.py reports a prediction that is itself the
    base64 text, and one that carries it under ["image"], as a shape
    mismatch; nothing is decoded or written. *)
Lemma app_rejects_other_layouts :
  let E := scenario HttpTimeout in
  a2b_base64 E "QUJD" = Some [Byte.x41; Byte.x42; Byte.x43] /\
  App.extract_image_data (body_of (JStr "QUJD")) = Raise TypeError /\
  fst (App.handle_response E ∅ "a red fox" None "1:1" "standard" (body_of (JStr "QUJD")))
  = App.Error App.parse_failure /\
  App.extract_image_data (body_of (JDict [("image", JDict [("bytesBase64Encoded", JStr "QUJD")])]))
  = Raise KeyError /\
  fst (App.handle_response E ∅ "a red fox" None "1:1" "standard"
         (body_of (JDict [("image", JDict [("bytesBase64Encoded", JStr "QUJD")])])))
  = App.Error App.parse_failure.
Proof. vm_compute. repeat split; reflexivity. Qed.

(** A slip beside C2: a first prediction that is an object with none of the
    known fields is handed on as if it were the image data, and the failure
    is logged as one of processing, not of extraction. *)
Example texture_unknown_object_is_not_a_shape_error :
  TextureGenerator.handle_response (scenario HttpTimeout) ∅
    (body_of (JDict [("mimeType", JStr "image/png")])) "oak.png"
  = (Aborted (TextureGenerator.processing_failure TypeError), ∅).
Proof. reflexivity. Qed.

Lemma contains_blocked str_json str_exn reasons :
  contains "blocked by safety filters" (render str_json str_exn (App.blocked reasons)) = true.
Proof.
  unfold App.blocked, render, fold_right.
  change ("Generation blocked by safety filters (Reason: ")
    with ("Generation " ++ "blocked by safety filters" ++ " (Reason: ").
  rewrite !append_assoc. apply contains_app_r, contains_prefix, prefix_app.
Qed.

(** C3, as the code has it.  When the body of a successful response is an
    object whose ["predictions"] is absent or empty and whose
    ["safetyAttributes"] is an object with a true ["filtered"], the run
    returns the error that names the safety filters and the reason; its text
    contains "blocked by safety filters" and is not the text of the generic
    answer for missing predictions.  Nothing is written. *)
Theorem safety_filter_is_reported
    (E : env) (st : state) (prompt : string) (negative_prompt style_preset : option string)
    (aspect_ratio quality : string) (B sa : dict) (filtered : json) :
  truthy_str (access_token E) = true ->
  post E (App.build_request prompt negative_prompt style_preset aspect_ratio quality)
  = HttpOk (Some (JDict B)) ->
  assoc "predictions" B = None \/
  (exists p, assoc "predictions" B = Some p /\ truthy p = false) ->
  assoc "safetyAttributes" B = Some (JDict sa) ->
  assoc "filtered" sa = Some filtered ->
  truthy filtered = true ->
  let reasons := match assoc "reason" sa with Some r => r | None => JStr "Unknown" end in
  let run := App.generate_image_requests E st prompt negative_prompt style_preset
               aspect_ratio quality in
  fst run = App.Error (App.blocked reasons) /\
  files (snd run) = files st /\
  forall str_json str_exn,
    contains "blocked by safety filters" (render str_json str_exn (App.blocked reasons))
    = true /\
    render str_json str_exn (App.blocked reasons)
    <> render str_json str_exn App.no_predictions.
Proof.
  intros Ht Hpost Hpred Hsa Hf Hft. cbv zeta.
  unfold App.generate_image_requests. rewrite Ht, Hpost. simpl negb. cbv iota.
  assert (Hc : App.check_predictions (JDict B)
               = Return (Some (App.Error (App.blocked
                   match assoc "reason" sa with Some r => r | None => JStr "Unknown" end)))).
  { unfold App.check_predictions; simpl.
    destruct Hpred as [H | (p & H & Hp)]; rewrite H; simpl; try rewrite Hp; simpl;
      rewrite Hsa; simpl; rewrite Hf; simpl; by rewrite Hft. }
  unfold App.handle_response. rewrite Hc.
  split; [reflexivity |]. split; [reflexivity |].
  intros str_json str_exn. split; [apply contains_blocked |]. simpl. discriminate.
Qed.

Lemma safety_filter_is_reported_witness :
  let B := [("safetyAttributes", JDict [("filtered", JBool true); ("reason", JStr "violence")])] in
  let E := scenario (HttpOk (Some (JDict B))) in
  let run := App.generate_image_requests E (State ∅ []) "a red fox" None None "1:1" "standard" in
  fst run = App.Error (App.blocked (JStr "violence")) /\
  files (snd run) = ∅ /\
  forall str_json str_exn,
    contains "blocked by safety filters"
      (render str_json str_exn (App.blocked (JStr "violence"))) = true /\
    render str_json str_exn (App.blocked (JStr "violence"))
    <> render str_json str_exn App.no_predictions.
Proof.
  exact (safety_filter_is_reported
           (scenario (HttpOk (Some (JDict [("safetyAttributes",
              JDict [("filtered", JBool true); ("reason", JStr "violence")])]))))
           (State ∅ []) "a red fox" None None "1:1" "standard"
           [("safetyAttributes", JDict [("filtered", JBool true); ("reason", JStr "violence")])]
           [("filtered", JBool true); ("reason", JStr "violence")] (JBool true)
           eq_refl eq_refl (or_introl eq_refl) eq_refl eq_refl eq_refl).
Defined.

(** C3, the failing case: the body has a true [safetyAttributes.filtered]
    and a prediction as well; the image is decoded, saved and its address
    returned, and no error is reported. *)
Lemma filtered_body_with_prediction_is_saved :
  let body :=
    JDict [ ("predictions", JList [JDict [("bytesBase64Encoded", JStr "QUJD")]]);
            ("safetyAttributes", JDict [("filtered", JBool true)]) ] in
  let E := scenario (HttpOk (Some body)) in
  let run := App.generate_image_requests E (State ∅ []) "a red fox" None None "1:1" "standard" in
  fst run
  = App.ImageUrl "/static/generated/generated_123e4567-e89b-12d3-a456-426614174000.png" /\
  files (snd run) !! "generated_123e4567-e89b-12d3-a456-426614174000.png"
  = Some (Blob [Byte.x41; Byte.x42; Byte.x43]).
Proof. vm_compute. split; reflexivity. Qed.

(* ===================================================================== *)
(** * Deleting an image                                                   *)
(* ===================================================================== *)

Lemma filter_items_objects filename (l : list json) :
  Forall (fun item => is_dict item = true) l ->
  App.filter_items filename l
  = Return (List.filter (fun item => negb (entry_is_for filename item)) l).
Proof.
  induction 1 as [|item l Hd _ IH]; [reflexivity |].
  simpl. rewrite IH. destruct item; try discriminate. simpl.
  unfold entry_is_for. destruct (assoc "filename" d) as [[]|]; reflexivity.
Qed.







(** Two slips beside C4.  Asked to delete the metadata document, the
    endpoint removes it, with every entry.  Asked for a name that the
    sanitiser empties, it tries to remove the folder and answers 500. *)
Example delete_metadata_document :
  let E := scenario HttpTimeout in
  let fs : gmap string file :=
    {[ "a.png" := Blob [Byte.x41];
       metadata_path := JsonText (JList [entry_for "a.png"]) ]} in
  App.status (fst (App.delete_image E fs "metadata.json")) = 200 /\
  snd (App.delete_image E fs "metadata.json") !! metadata_path = None.
Proof. vm_compute. split; reflexivity. Qed.

Example delete_emptied_name :
  let E := scenario HttpTimeout in
  secure_filename E "__" = "" /\
  App.delete_image E ∅ "__" = (App.Response false (Some [ShowExn OSError]) 500, ∅).
Proof. vm_compute. split; reflexivity. Qed.

(* ===================================================================== *)
(** * More on the request builder of app.py                               *)
(* ===================================================================== *)

(** X1.  The [steps] of the request body are 30 for the quality "standard",
    50 for "hd", and absent for every other quality string. *)
Theorem quality_sets_steps
    (prompt : string) (negative_prompt style_preset : option string)
    (aspect_ratio quality : string) :
  parameter "steps"
    (App.build_request prompt negative_prompt style_preset aspect_ratio quality)
  = if String.eqb quality "standard" then Some (JInt 30)
    else if String.eqb quality "hd" then Some (JInt 50)
    else None.
Proof.
  rewrite parameter_build_request. unfold App.build_parameters.
  destruct (App.preset_lookup style_preset App.guidance_scales) as [g|];
    destruct (assoc aspect_ratio App.aspect_dimensions) as [[h w]|];
    autorewrite with dict; unfold App.quality_params, assoc at 2; table_cases.
Qed.

(** X2.  The guidance scale of the request body is the value of the table
    for each of its fourteen presets, and 7.0 for a preset that the table
    does not have, for the empty preset and for no preset at all. *)
Theorem guidance_scale_of_preset
    (prompt : string) (negative_prompt : option string) (aspect_ratio quality : string) :
  Forall (fun row =>
            parameter "guidance_scale"
              (App.build_request prompt negative_prompt (Some (fst row)) aspect_ratio quality)
            = Some (JFloat (snd row)))
         App.guidance_scales /\
  (forall style_preset,
     App.preset_lookup style_preset App.guidance_scales = None ->
     parameter "guidance_scale"
       (App.build_request prompt negative_prompt style_preset aspect_ratio quality)
     = Some (JFloat 7.0%float)) /\
  App.preset_lookup None App.guidance_scales = None /\
  App.preset_lookup (Some "") App.guidance_scales = None.
Proof.
  split; [| split; [| split; reflexivity]].
  - unfold App.guidance_scales.
    repeat constructor; rewrite parameter_build_request; unfold App.build_parameters;
      cbn [fst snd]; simpl App.preset_lookup;
      destruct (assoc aspect_ratio App.aspect_dimensions) as [[h w]|];
      by autorewrite with dict.
  - intros style_preset Hn. rewrite parameter_build_request.
    unfold App.build_parameters. rewrite Hn.
    by autorewrite with dict.
Qed.

(** X3.  The [parameters] object of the request body has the keys
    [sampleCount], [steps] (for the two known qualities only), [height],
    [width] and [guidance_scale], each once and in this order, whatever the
    inputs. *)
Theorem parameters_keys
    (style_preset : option string) (aspect_ratio quality : string) :
  map fst (App.build_parameters style_preset aspect_ratio quality)
  = ("sampleCount"
       :: (if String.eqb quality "standard" || String.eqb quality "hd"
           then ["steps"] else [])
       ++ ["height"; "width"; "guidance_scale"])%list.
Proof.
  assert (Hq : assoc quality App.quality_params
               = if String.eqb quality "standard" then Some [("steps", JInt 30)]
                 else if String.eqb quality "hd" then Some [("steps", JInt 50)]
                 else None) by reflexivity.
  unfold App.build_parameters. rewrite Hq.
  destruct (String.eqb quality "standard"); [| destruct (String.eqb quality "hd")];
    destruct (App.preset_lookup style_preset App.guidance_scales) as [g|];
    destruct (assoc aspect_ratio App.aspect_dimensions) as [[h w]|]; reflexivity.
Qed.

(** X4.  The instance of the request body carries a [negative_prompt] exactly
    when one is given and is not empty, and then it is the text given. *)
Theorem negative_prompt_sent_when_not_empty
    (prompt : string) (negative_prompt style_preset : option string)
    (aspect_ratio quality : string) :
  instance_field "negative_prompt"
    (App.build_request prompt negative_prompt style_preset aspect_ratio quality)
  = match negative_prompt with
    | Some n => if String.eqb n "" then None else Some (JStr n)
    | None => None
    end.
Proof.
  unfold App.build_request, App.build_instance.
  destruct (App.preset_lookup style_preset App.guidance_scales);
    destruct (App.preset_lookup style_preset App.style_prefixes);
    try destruct (contains _ _);
    destruct negative_prompt as [n|]; simpl; try destruct (String.eqb n ""); reflexivity.
Qed.

(** X5.  The prompt of the request body always begins with the caller's
    prompt, and is the caller's prompt unchanged for a preset without a
    prefix (among them "photographic" and "enhance") and for no preset. *)
Theorem prompt_is_kept
    (prompt : string) (negative_prompt style_preset : option string)
    (aspect_ratio quality : string) :
  let data := App.build_request prompt negative_prompt style_preset aspect_ratio quality in
  (exists tail, instance_prompt data = Some (prompt ++ tail)) /\
  (App.preset_lookup style_preset App.style_prefixes = None ->
   instance_prompt data = Some prompt) /\
  App.preset_lookup (Some "photographic") App.style_prefixes = None /\
  App.preset_lookup (Some "enhance") App.style_prefixes = None.
Proof.
  cbv zeta. rewrite instance_prompt_build_request.
  split; [| split; [| split; reflexivity]].
  - destruct (App.preset_lookup style_preset App.guidance_scales);
      destruct (App.preset_lookup style_preset App.style_prefixes);
      try destruct (contains _ _); eauto;
      exists ""; by rewrite append_empty_r.
  - intros ->. by destruct (App.preset_lookup style_preset App.guidance_scales).
Qed.

(** X6.  The prefix of a preset is looked for without regard to case: a
    prompt that holds the prefix in any mix of upper and lower case is sent
    as it is. *)
Theorem prefix_detection_ignores_case
    (before after spelled : string) (negative_prompt : option string)
    (style prefix aspect_ratio quality : string) :
  assoc style App.style_prefixes = Some prefix ->
  lower spelled = lower prefix ->
  instance_prompt
    (App.build_request (before ++ spelled ++ after) negative_prompt (Some style)
       aspect_ratio quality)
  = Some (before ++ spelled ++ after).
Proof.
  intros Hp Hl. rewrite instance_prompt_build_request.
  cbv beta iota delta [App.preset_lookup]. rewrite Hp.
  destruct (assoc style App.guidance_scales); [| reflexivity].
  rewrite !lower_app, Hl.
  by rewrite (contains_app_r _ _ _ (contains_prefix _ _ (prefix_app _ _))).
Qed.

Lemma prefix_detection_ignores_case_witness :
  assoc "anime" App.style_prefixes = Some "anime style" /\
  lower "Anime STYLE" = lower "anime style" /\
  instance_prompt
    (App.build_request ("a cat, " ++ "Anime STYLE" ++ ", at night") None (Some "anime")
       "1:1" "standard")
  = Some ("a cat, " ++ "Anime STYLE" ++ ", at night").
Proof.
  split; [reflexivity |]. split; [reflexivity |].
  exact (prefix_detection_ignores_case "a cat, " ", at night" "Anime STYLE" None
           "anime" "anime style" "1:1" "standard" eq_refl eq_refl).
Defined.

(* ===================================================================== *)
(** * More on a run of app.py                                             *)
(* ===================================================================== *)

(** The entry that a run of [generate_image_requests] adds to the metadata
    document. *)
Lemma generation_entry_eq E prompt style_preset aspect_ratio quality :
  (if truthy (JDict [ ("style_preset", App.json_of_option style_preset);
                      ("aspect_ratio", JStr aspect_ratio); ("quality", JStr quality) ])
   then dict_update
          [ ("filename", JStr ("generated_" ++ uuid4 E ++ ".png"));
            ("prompt", JStr prompt); ("type", JStr "generation");
            ("created", JStr (now_isoformat E)) ]
          [ ("style_preset", App.json_of_option style_preset);
            ("aspect_ratio", JStr aspect_ratio); ("quality", JStr quality) ]
   else [ ("filename", JStr ("generated_" ++ uuid4 E ++ ".png"));
          ("prompt", JStr prompt); ("type", JStr "generation");
          ("created", JStr (now_isoformat E)) ])
  = generation_entry E prompt style_preset aspect_ratio quality.
Proof. reflexivity. Qed.

(** What [save_image_metadata] does, by the state of the document. *)
Lemma save_image_metadata_result E fs filename prompt operation_type extra_params :
  let entry :=
    let base := [ ("filename", JStr filename); ("prompt", JStr prompt);
                  ("type", JStr operation_type); ("created", JStr (now_isoformat E)) ] in
    if truthy (JDict extra_params) then dict_update base extra_params else base in
  let write (l : list json) :=
    if open_fails E metadata_path then (Return (), fs)
    else (Return (), <[metadata_path := JsonText (JList (l ++ [JDict entry]))]> fs) in
  App.save_image_metadata E fs filename prompt operation_type extra_params
  = match fs !! metadata_path with
    | Some (JsonText (JList l)) => write l
    | Some (JsonText _) => (Raise AttributeError, fs)
    | Some f => if decodes E f then write [] else (Raise UnicodeDecodeError, fs)
    | None => write []
    end.
Proof.
  cbv zeta. unfold App.save_image_metadata, json_load.
  destruct (fs !! metadata_path) as [[b|j|i]|]; try reflexivity;
    by destruct (decodes E _).
Qed.

(** A run of the response handler either writes nothing and returns no
    address, or has decoded the field of the first prediction and written
    the image file before it turns to the metadata. *)
Lemma app_handle_response_cases E fs prompt style_preset aspect_ratio quality body :
  let unique_filename := ("generated_" ++ uuid4 E ++ ".png")%string in
  let run := App.handle_response E fs prompt style_preset aspect_ratio quality body in
  (snd run = fs /\ forall url, fst run <> App.ImageUrl url) \/
  (exists v image_bytes,
     App.check_predictions body = Return None /\
     App.extract_image_data body = Return v /\
     b64decode E v = Return image_bytes /\
     open_fails E unique_filename = false /\
     run = match App.save_image_metadata E (<[unique_filename := Blob image_bytes]> fs)
                   unique_filename prompt "generation"
                   [ ("style_preset", App.json_of_option style_preset);
                     ("aspect_ratio", JStr aspect_ratio); ("quality", JStr quality) ] with
           | (Return _, fs2) =>
               (App.ImageUrl ("/static/generated/" ++ unique_filename), fs2)
           | (Raise e, fs2) => (App.on_save_error e, fs2)
           end).
Proof.
  cbv zeta. unfold App.handle_response.
  destruct (App.check_predictions body) as [[r|]|e] eqn:Hc; simpl.
  - left. split; [done |]. intros url ->.
    destruct (check_predictions_error _ _ Hc) as [msg [=]].
  - destruct (App.extract_image_data body) as [v|e] eqn:He; simpl.
    + unfold App.save_generated.
      destruct (b64decode E v) as [image_bytes|e] eqn:Hb.
      * destruct (open_fails E _) eqn:Ho; [left; split; [done | discriminate] |].
        right. exists v, image_bytes. repeat split; done.
      * left. split; [done |]. intros url. by destruct e.
    + left. by destruct (is_shape_error e).
  - left. done.
Qed.

Lemma app_generate_cases E st prompt negative_prompt style_preset aspect_ratio quality :
  let unique_filename := ("generated_" ++ uuid4 E ++ ".png")%string in
  let data := App.build_request prompt negative_prompt style_preset aspect_ratio quality in
  let run := App.generate_image_requests E st prompt negative_prompt style_preset
               aspect_ratio quality in
  (files (snd run) = files st /\ forall url, fst run <> App.ImageUrl url) \/
  (exists body v image_bytes,
     truthy_str (access_token E) = true /\
     post E data = HttpOk (Some body) /\
     App.check_predictions body = Return None /\
     App.extract_image_data body = Return v /\
     b64decode E v = Return image_bytes /\
     open_fails E unique_filename = false /\
     (fst run, files (snd run))
     = match App.save_image_metadata E (<[unique_filename := Blob image_bytes]> (files st))
                 unique_filename prompt "generation"
                 [ ("style_preset", App.json_of_option style_preset);
                   ("aspect_ratio", JStr aspect_ratio); ("quality", JStr quality) ] with
       | (Return _, fs2) =>
           (App.ImageUrl ("/static/generated/" ++ unique_filename), fs2)
       | (Raise e, fs2) => (App.on_save_error e, fs2)
       end).
Proof.
  cbv zeta. unfold App.generate_image_requests.
  destruct (truthy_str (access_token E)) eqn:Ht; simpl; [| left; done].
  destruct (post E _) as [[body|]| |s b t|] eqn:Hp; simpl; try (left; done).
  - destruct (app_handle_response_cases E (files st) prompt style_preset aspect_ratio
                quality body) as [[H1 H2] | (v & image_bytes & Hc & He & Hb & Ho & Hr)].
    + left. by destruct (App.handle_response _ _ _ _ _ _ _).
    + right. exists body, v, image_bytes. rewrite Hr.
      repeat split; try done.
      by destruct (App.save_image_metadata _ _ _ _ _ _) as [[[]|e] fs2].
  - left. split; [done |]. unfold App.http_error. intros url.
    destruct b as [err_json|]; [| discriminate]. by destruct (_ ≫= _).
Qed.

(** The one layout from which app.py takes the image data. *)
Lemma app_extract_shape body v :
  App.extract_image_data body = Return v ->
  exists B p rest,
    body = JDict B /\
    assoc "predictions" B = Some (JList (JDict p :: rest)) /\
    assoc "bytesBase64Encoded" p = Some v.
Proof.
  intros He.
  unfold App.extract_image_data, mbind, exc_bind, py_getitem, py_first in He.
  repeat case_match; try discriminate. simplify_eq. eauto 10.
Qed.

(** X7.  Each call posts at most once: a run of [generate_image_requests],
    in app.py and in both texture scripts, adds its request body to what was
    sent, or adds nothing; it adds nothing when no token is at hand. *)
Theorem one_post_per_call
    (E : env) (st : state) (prompt : string) (negative_prompt style_preset : option string)
    (aspect_ratio quality : string) (texture_prompt : json) (output_filename : string) :
  let app := App.generate_image_requests E st prompt negative_prompt style_preset
               aspect_ratio quality in
  let tex := TextureGenerator.generate_image_requests E st texture_prompt output_filename in
  let code := Code.generate_image_requests E st texture_prompt output_filename in
  let posted :=
    if truthy_str (access_token E) then 1%nat else 0%nat in
  length (sent (snd app)) = (length (sent st) + posted)%nat /\
  length (sent (snd tex)) = (length (sent st) + posted)%nat /\
  length (sent (snd code)) = (length (sent st) + posted)%nat /\
  firstn (length (sent st)) (sent (snd app)) = sent st /\
  firstn (length (sent st)) (sent (snd tex)) = sent st /\
  firstn (length (sent st)) (sent (snd code)) = sent st.
Proof.
  cbv zeta. rewrite app_sent, texture_generator_sent, code_sent.
  rewrite !length_app, !firstn_app, !Nat.sub_diag, !firstn_all.
  destruct (truthy_str (access_token E)); simpl; rewrite ?app_nil_r; done.
Qed.

(** X8.  A run of app.py changes the directory only after it has decoded
    the field [bytesBase64Encoded] of the first prediction of a successful
    answer and could open the image file: in every other case (no token,
    time-out, HTTP or network error, a body that is not JSON, a body without
    predictions, a shape mismatch, a decoding failure) the files are as
    before. *)
Theorem writes_only_decoded_images
    (E : env) (st : state) (prompt : string) (negative_prompt style_preset : option string)
    (aspect_ratio quality : string) :
  let run := App.generate_image_requests E st prompt negative_prompt style_preset
               aspect_ratio quality in
  files (snd run) <> files st ->
  exists body v image_bytes,
    truthy_str (access_token E) = true /\
    post E (App.build_request prompt negative_prompt style_preset aspect_ratio quality)
    = HttpOk (Some body) /\
    App.extract_image_data body = Return v /\
    b64decode E v = Return image_bytes /\
    files (snd run) !! ("generated_" ++ uuid4 E ++ ".png")%string = Some (Blob image_bytes).
Proof.
  cbv zeta. intros Hne.
  destruct (app_generate_cases E st prompt negative_prompt style_preset aspect_ratio quality)
    as [[H1 _] | (body & v & image_bytes & Ht & Hp & Hc & He & Hb & Ho & Hr)]; [done |].
  exists body, v, image_bytes. repeat split; try done.
  assert (Hfs : files (snd (App.generate_image_requests E st prompt negative_prompt
                              style_preset aspect_ratio quality))
                = snd (App.save_image_metadata E
                         (<[("generated_" ++ uuid4 E ++ ".png")%string := Blob image_bytes]>
                            (files st))
                         ("generated_" ++ uuid4 E ++ ".png") prompt "generation"
                         [ ("style_preset", App.json_of_option style_preset);
                           ("aspect_ratio", JStr aspect_ratio); ("quality", JStr quality) ]))
    by (destruct (App.save_image_metadata _ _ _ _ _ _) as [[[]|e] fs2]; by injection Hr).
  rewrite Hfs, save_image_metadata_other by apply generated_name_not_metadata.
  apply lookup_insert_eq.
Qed.

Lemma writes_only_decoded_images_witness :
  let E := scenario (HttpOk (Some (body_of (JDict [("bytesBase64Encoded", JStr "QUJD")])))) in
  let run := App.generate_image_requests E (State ∅ []) "a red fox" None None "1:1" "standard" in
  files (snd run) <> ∅ /\
  exists body v image_bytes,
    truthy_str (access_token E) = true /\
    post E (App.build_request "a red fox" None None "1:1" "standard") = HttpOk (Some body) /\
    App.extract_image_data body = Return v /\
    b64decode E v = Return image_bytes /\
    files (snd run) !! ("generated_" ++ uuid4 E ++ ".png")%string = Some (Blob image_bytes).
Proof.
  assert (Hne : files (snd (App.generate_image_requests
                   (scenario (HttpOk (Some (body_of (JDict [("bytesBase64Encoded", JStr "QUJD")])))))
                   (State ∅ []) "a red fox" None None "1:1" "standard")) <> ∅).
  { intros H. apply (f_equal (fun m => m !! metadata_path)) in H.
    vm_compute in H. discriminate. }
  split; [exact Hne |].
  exact (writes_only_decoded_images
           (scenario (HttpOk (Some (body_of (JDict [("bytesBase64Encoded", JStr "QUJD")])))))
           (State ∅ []) "a red fox" None None "1:1" "standard" Hne).
Defined.

(** X9.  The address that a run of app.py returns names a file that the
    directory then holds: it is [/static/generated/] followed by the name
    made from the UUID, and the file of that name holds exactly the bytes
    decoded from the field [bytesBase64Encoded] of the first prediction. *)
Theorem success_names_saved_file
    (E : env) (st : state) (prompt : string) (negative_prompt style_preset : option string)
    (aspect_ratio quality url : string) :
  let unique_filename := ("generated_" ++ uuid4 E ++ ".png")%string in
  let run := App.generate_image_requests E st prompt negative_prompt style_preset
               aspect_ratio quality in
  fst run = App.ImageUrl url ->
  url = ("/static/generated/" ++ unique_filename)%string /\
  exists B p rest v image_bytes,
    post E (App.build_request prompt negative_prompt style_preset aspect_ratio quality)
    = HttpOk (Some (JDict B)) /\
    assoc "predictions" B = Some (JList (JDict p :: rest)) /\
    assoc "bytesBase64Encoded" p = Some v /\
    b64decode E v = Return image_bytes /\
    files (snd run) !! unique_filename = Some (Blob image_bytes).
Proof.
  cbv zeta. intros Hu.
  destruct (app_generate_cases E st prompt negative_prompt style_preset aspect_ratio quality)
    as [[_ H2] | (body & v & image_bytes & Ht & Hp & Hc & He & Hb & Ho & Hr)];
    [by destruct (H2 url) |].
  destruct (app_extract_shape _ _ He) as (B & p & rest & -> & Hpred & Hv).
  assert (Hfs : files (snd (App.generate_image_requests E st prompt negative_prompt
                              style_preset aspect_ratio quality))
                = snd (App.save_image_metadata E
                         (<[("generated_" ++ uuid4 E ++ ".png")%string := Blob image_bytes]>
                            (files st))
                         ("generated_" ++ uuid4 E ++ ".png") prompt "generation"
                         [ ("style_preset", App.json_of_option style_preset);
                           ("aspect_ratio", JStr aspect_ratio); ("quality", JStr quality) ]))
    by (destruct (App.save_image_metadata _ _ _ _ _ _) as [[[]|e] fs2]; by injection Hr).
  split.
  - rewrite Hu in Hr.
    destruct (App.save_image_metadata _ _ _ _ _ _) as [[[]|e] fs2];
      [by injection Hr | by destruct e].
  - exists B, p, rest, v, image_bytes. repeat split; try done.
    rewrite Hfs, save_image_metadata_other by apply generated_name_not_metadata.
    apply lookup_insert_eq.
Qed.

Lemma success_names_saved_file_witness :
  let E := scenario (HttpOk (Some (body_of (JDict [("bytesBase64Encoded", JStr "QUJD")])))) in
  let unique_filename := ("generated_" ++ uuid4 E ++ ".png")%string in
  let run := App.generate_image_requests E (State ∅ []) "a red fox" None None "1:1" "standard" in
  fst run = App.ImageUrl ("/static/generated/" ++ unique_filename) /\
  exists B p rest v image_bytes,
    post E (App.build_request "a red fox" None None "1:1" "standard")
    = HttpOk (Some (JDict B)) /\
    assoc "predictions" B = Some (JList (JDict p :: rest)) /\
    assoc "bytesBase64Encoded" p = Some v /\
    b64decode E v = Return image_bytes /\
    files (snd run) !! unique_filename = Some (Blob image_bytes).
Proof.
  split; [reflexivity |].
  exact (proj2 (success_names_saved_file
           (scenario (HttpOk (Some (body_of (JDict [("bytesBase64Encoded", JStr "QUJD")])))))
           (State ∅ []) "a red fox" None None "1:1" "standard" _ eq_refl)).
Defined.

(** X10.  An HTTP error is reported as "HTTP", the status and a detail: the
    text of the answer when its body is not JSON, the field [message] of the
    object under [error] when there is one, the text again when the body is
    an object without them.  When the body is JSON but no object, or its
    [error] is no object, the handler itself raises [AttributeError] and no
    error result is returned.  No file changes in any of these cases. *)
Theorem http_error_report
    (E : env) (st : state) (prompt : string) (negative_prompt style_preset : option string)
    (aspect_ratio quality : string) (code : Z) (body : option json) (text : string) :
  let run := App.generate_image_requests E st prompt negative_prompt style_preset
               aspect_ratio quality in
  truthy_str (access_token E) = true ->
  post E (App.build_request prompt negative_prompt style_preset aspect_ratio quality)
  = HttpError code body text ->
  files (snd run) = files st /\
  fst run
  = match body with
    | None => App.Error [Text "HTTP "; ShowJson (JInt code); Text ": "; Text text]
    | Some (JDict B) =>
        match assoc "error" B with
        | None =>
            App.Error [Text "HTTP "; ShowJson (JInt code); Text ": "; ShowJson (JStr text)]
        | Some (JDict e) =>
            App.Error [ Text "HTTP "; ShowJson (JInt code); Text ": ";
                        ShowJson (match assoc "message" e with
                                  | Some m => m
                                  | None => JStr text
                                  end) ]
        | Some _ => App.Uncaught AttributeError
        end
    | Some _ => App.Uncaught AttributeError
    end.
Proof.
  cbv zeta. intros Ht Hp. unfold App.generate_image_requests. rewrite Ht, Hp. simpl.
  split; [reflexivity |].
  destruct body as [[| | | | | |B]|]; try reflexivity.
  unfold App.http_error; simpl.
  destruct (assoc "error" B) as [[| | | | | |e]|]; reflexivity.
Qed.

Lemma http_error_report_witness :
  let body := JDict [("error", JStr "quota exceeded")] in
  let E := scenario (HttpError 429 (Some body) "{...}") in
  let run := App.generate_image_requests E (State ∅ []) "a red fox" None None "1:1" "standard" in
  files (snd run) = ∅ /\ fst run = App.Uncaught AttributeError.
Proof.
  exact (http_error_report
           (scenario (HttpError 429 (Some (JDict [("error", JStr "quota exceeded")])) "{...}"))
           (State ∅ []) "a red fox" None None "1:1" "standard" 429
           (Some (JDict [("error", JStr "quota exceeded")])) "{...}" eq_refl eq_refl).
Defined.



(* ===================================================================== *)
(** * The gallery                                                         *)
(* ===================================================================== *)

(** The metadata document after a run that returned an address. *)
Lemma metadata_after_success E st prompt negative_prompt style_preset aspect_ratio quality url :
  let run := App.generate_image_requests E st prompt negative_prompt style_preset
               aspect_ratio quality in
  let old :=
    match files st !! metadata_path with
    | Some (JsonText (JList l)) => l
    | _ => []
    end in
  fst run = App.ImageUrl url ->
  files (snd run) !! metadata_path
  = if open_fails E metadata_path then files st !! metadata_path
    else Some (JsonText (JList (old ++ [JDict (generation_entry E prompt style_preset
                                                 aspect_ratio quality)]))).
Proof.
  cbv zeta. intros Hu.
  destruct (app_generate_cases E st prompt negative_prompt style_preset aspect_ratio quality)
    as [[_ H2] | (body & v & image_bytes & Ht & Hp & Hc & He & Hb & Ho & Hr)];
    [by destruct (H2 url) |].
  rewrite Hu, save_image_metadata_result in Hr. cbv zeta in Hr.
  rewrite generation_entry_eq in Hr.
  rewrite lookup_insert_ne in Hr by apply generated_name_not_metadata.
  destruct (files st !! metadata_path) as [[b|j|i]|] eqn:Hm;
    try destruct j; try destruct (decodes E _); destruct (open_fails E metadata_path);
    try discriminate; injection Hr as _ ->;
    rewrite ?lookup_insert_eq, ?lookup_insert_ne by apply generated_name_not_metadata;
    done.
Qed.

(** X12.  After a run that returned an address and could write the
    metadata document, the document is the list it was (the empty list if it
    was absent or its text was no JSON) followed by one entry for the new file; that
    entry records the caller's prompt, not the prompt with the style prefix,
    and the gallery listing returns exactly this list.  If the document could
    not be written the run still returns the address and the document is as
    before. *)
Theorem gallery_lists_new_image
    (E : env) (st : state) (prompt : string) (negative_prompt style_preset : option string)
    (aspect_ratio quality url : string) (ctime : string -> string) :
  let unique_filename := ("generated_" ++ uuid4 E ++ ".png")%string in
  let run := App.generate_image_requests E st prompt negative_prompt style_preset
               aspect_ratio quality in
  let old :=
    match files st !! metadata_path with
    | Some (JsonText (JList l)) => l
    | _ => []
    end in
  let entry := JDict (generation_entry E prompt style_preset aspect_ratio quality) in
  fst run = App.ImageUrl url ->
  (open_fails E metadata_path = false ->
     AppRoutes.get_gallery_images E ctime (files (snd run)) = Return (JList (old ++ [entry])) /\
     entry_is_for unique_filename entry = true /\
     assoc "prompt" (generation_entry E prompt style_preset aspect_ratio quality)
     = Some (JStr prompt)) /\
  (open_fails E metadata_path = true ->
     files (snd run) !! metadata_path = files st !! metadata_path).
Proof.
  cbv zeta. intros Hu.
  pose proof (metadata_after_success E st prompt negative_prompt style_preset aspect_ratio
                quality url Hu) as Hm. cbv zeta in Hm.
  split; intros Ho; rewrite Ho in Hm; [| exact Hm].
  split; [| split; [| reflexivity]].
  - unfold AppRoutes.get_gallery_images. by rewrite Hm.
  - unfold entry_is_for, generation_entry. simpl. apply String.eqb_refl.
Qed.

Lemma gallery_lists_new_image_witness :
  let E := scenario (HttpOk (Some (body_of (JDict [("bytesBase64Encoded", JStr "QUJD")])))) in
  let st := State {[ metadata_path := JsonText (JList [entry_for "a.png"]) ]} [] in
  let run := App.generate_image_requests E st "a red fox" None (Some "cinematic") "1:1" "hd" in
  fst run
  = App.ImageUrl "/static/generated/generated_123e4567-e89b-12d3-a456-426614174000.png" /\
  AppRoutes.get_gallery_images E sample_ctime (files (snd run))
  = Return (JList [ entry_for "a.png";
                    JDict (generation_entry E "a red fox" (Some "cinematic") "1:1" "hd") ]).
Proof.
  split; [reflexivity |].
  exact (proj1 (proj1 (gallery_lists_new_image
           (scenario (HttpOk (Some (body_of (JDict [("bytesBase64Encoded", JStr "QUJD")])))))
           (State {[ metadata_path := JsonText (JList [entry_for "a.png"]) ]} [])
           "a red fox" None (Some "cinematic") "1:1" "hd" _ sample_ctime eq_refl) eq_refl)).
Defined.




(* ===================================================================== *)
(** * More on deleting an image                                           *)
(* ===================================================================== *)

(** The branches of [delete_image]. *)
Lemma delete_image_cases E fs filename :
  let name := secure_filename E filename in
  let run := App.delete_image E fs filename in
  (filename = "" /\ run = (App.Response false (Some [Text "No filename provided"]) 400, fs)) \/
  (filename <> "" /\ name <> "" /\ fs !! name = None /\
   run = (App.Response false (Some [Text "File not found"]) 404, fs)) \/
  (filename <> "" /\ (name = "" \/ (is_Some (fs !! name) /\ remove_fails E name = true)) /\
   run = (App.Response false (Some [ShowExn OSError]) 500, fs)) \/
  (filename <> "" /\ name <> "" /\ is_Some (fs !! name) /\ remove_fails E name = false /\
   ((exists e, run = (App.Response false (Some [ShowExn e]) 500, delete name fs)) \/
    run = (App.Response true None 200, delete name fs) \/
    (exists metadata', name <> metadata_path /\
       run = (App.Response true None 200,
              <[metadata_path := JsonText metadata']> (delete name fs))))).
Proof.
  cbv zeta. unfold App.delete_image.
  destruct (String.eqb_spec filename "") as [->|Hf]; [left; done |]. right.
  unfold App.path_exists, App.os_remove.
  destruct (String.eqb_spec (secure_filename E filename) "") as [Hn|Hn]; simpl.
  { right. left. rewrite Hn. simpl. auto. }
  destruct (fs !! secure_filename E filename) as [f0|] eqn:Hf0; simpl; [| left; done].
  right.
  destruct (remove_fails E (secure_filename E filename)) eqn:Hr; simpl.
  { left. split; [done |]. split; [| done]. right. eauto. }
  right. repeat (split; [by eauto |]).
  destruct (delete (secure_filename E filename) fs !! metadata_path) as [f|] eqn:Hm;
    [| right; left; done].
  assert (Hne : secure_filename E filename <> metadata_path).
  { intros Heq. rewrite Heq, lookup_delete_eq in Hm. discriminate. }
  destruct (_ ≫= _) as [metadata'|e]; simpl.
  - destruct (open_fails E metadata_path); [right; left; done |].
    right. right. eauto.
  - destruct e; eauto.
Qed.

(** X14.  Whatever it is asked, [delete_image] answers 200, 400, 404 or
    500, and says [success] exactly with 200.  With 400 or 404 the directory
    is as before.  With 200 the request named a file that existed and no file
    of the sanitised name is left.  In every case no file other than the one
    of the sanitised name and the metadata document changes. *)
Theorem delete_image_answers (E : env) (fs : gmap string file) (filename : string) :
  let name := secure_filename E filename in
  let run := App.delete_image E fs filename in
  In (App.status (fst run)) [200; 400; 404; 500] /\
  (App.success (fst run) = true <-> App.status (fst run) = 200) /\
  (App.status (fst run) = 400 \/ App.status (fst run) = 404 -> snd run = fs) /\
  (App.status (fst run) = 200 -> is_Some (fs !! name) /\ snd run !! name = None) /\
  (forall other, other <> name -> other <> metadata_path -> snd run !! other = fs !! other).
Proof.
  cbv zeta.
  destruct (delete_image_cases E fs filename)
    as [[_ ->] | [(_ & _ & _ & ->) | [(_ & _ & ->) |
          (_ & Hn & Hs & _ & [[e ->] | [-> | (m & Hm & ->)]])]]];
    cbn [fst snd App.status App.success].
  all: split; [simpl; tauto |].
  all: split; [split; (done || discriminate) |].
  all: split; [intros [|]; (done || discriminate) |].
  all: split; [| intros other H1 H2;
                 rewrite ?lookup_insert_ne, ?lookup_delete_ne by done; done].
  all: try discriminate.
  - intros _. split; [done | apply lookup_delete_eq].
  - intros _. split; [done |].
    rewrite lookup_insert_ne by done. apply lookup_delete_eq.
Qed.

(** X15.  A name that the sanitiser empties is answered 500, never 404: the
    folder itself passes the test of existence and cannot be removed as a
    file.  Nothing changes. *)
Theorem emptied_name_is_a_server_error
    (E : env) (fs : gmap string file) (filename : string) :
  filename <> "" -> secure_filename E filename = "" ->
  App.delete_image E fs filename
  = (App.Response false (Some [ShowExn OSError]) 500, fs).
Proof.
  intros Hf Hn. unfold App.delete_image.
  destruct (String.eqb_spec filename ""); [done |].
  by rewrite Hn.
Qed.

Lemma emptied_name_is_a_server_error_witness :
  secure_filename (scenario HttpTimeout) "._." = "" /\
  App.delete_image (scenario HttpTimeout) {[ "a.png" := Blob [Byte.x41] ]} "._."
  = (App.Response false (Some [ShowExn OSError]) 500, {[ "a.png" := Blob [Byte.x41] ]}).
Proof.
  split; [reflexivity |].
  apply (emptied_name_is_a_server_error (scenario HttpTimeout)
           {[ "a.png" := Blob [Byte.x41] ]} "._."); [discriminate | reflexivity].
Defined.

(** X16.  A request whose sanitised name is that of the metadata document
    removes the document: the answer is 200, every entry is lost, and the
    gallery listing falls back to the scan of the directory, where every
    prompt is "Unknown". *)
Theorem deleting_the_metadata_document
    (E : env) (fs : gmap string file) (filename : string) (ctime : string -> string) :
  filename <> "" -> secure_filename E filename = metadata_path ->
  is_Some (fs !! metadata_path) -> remove_fails E metadata_path = false ->
  App.delete_image E fs filename = (App.Response true None 200, delete metadata_path fs) /\
  AppRoutes.get_gallery_images E ctime (snd (App.delete_image E fs filename))
  = Return (JList (AppRoutes.scan_directory ctime (delete metadata_path fs))).
Proof.
  intros Hf Hn [f0 Hf0] Hr.
  assert (Hrun : App.delete_image E fs filename
                 = (App.Response true None 200, delete metadata_path fs)).
  { unfold App.delete_image.
    destruct (String.eqb_spec filename ""); [done |].
    rewrite Hn. unfold App.path_exists, App.os_remove. simpl.
    rewrite Hf0, Hr. simpl. by rewrite lookup_delete_eq. }
  split; [exact Hrun |]. rewrite Hrun. simpl.
  unfold AppRoutes.get_gallery_images. by rewrite lookup_delete_eq.
Qed.

Lemma deleting_the_metadata_document_witness :
  let fs : gmap string file :=
    {[ "a.png" := Blob [Byte.x41];
       metadata_path := JsonText (JList [entry_for "a.png"]) ]} in
  secure_filename (scenario HttpTimeout) "metadata.json" = metadata_path /\
  AppRoutes.get_gallery_images (scenario HttpTimeout) sample_ctime fs
  = Return (JList [entry_for "a.png"]) /\
  App.delete_image (scenario HttpTimeout) fs "metadata.json"
  = (App.Response true None 200, delete metadata_path fs) /\
  AppRoutes.get_gallery_images (scenario HttpTimeout) sample_ctime
    (snd (App.delete_image (scenario HttpTimeout) fs "metadata.json"))
  = Return (JList (AppRoutes.scan_directory sample_ctime (delete metadata_path fs))).
Proof.
  split; [reflexivity |]. split; [reflexivity |].
  apply (deleting_the_metadata_document (scenario HttpTimeout)
           {[ "a.png" := Blob [Byte.x41];
              metadata_path := JsonText (JList [entry_for "a.png"]) ]}
           "metadata.json" sample_ctime);
    [discriminate | reflexivity | by eexists | reflexivity].
Defined.



(** X18.  The start-up leaves a directory that has a metadata document as it
    is.  Without one it writes the scan of the directory as the document and
    touches no other file; the gallery listing is the same before and after,
    and a second start-up changes nothing. *)
Theorem start_up_writes_the_scan
    (E : env) (ctime : string -> string) (fs fs' : gmap string file) :
  AppRoutes.main E ctime fs = Return fs' ->
  is_Some (fs' !! metadata_path) /\
  (is_Some (fs !! metadata_path) -> fs' = fs) /\
  (fs !! metadata_path = None ->
     fs' = <[metadata_path := JsonText (JList (AppRoutes.scan_directory ctime fs))]> fs) /\
  AppRoutes.get_gallery_images E ctime fs' = AppRoutes.get_gallery_images E ctime fs /\
  AppRoutes.main E ctime fs' = Return fs'.
Proof.
  unfold AppRoutes.main.
  destruct (fs !! metadata_path) as [f|] eqn:Hm.
  - intros [= <-]. rewrite Hm. repeat split; eauto. by intros [=].
  - assert (Hg : AppRoutes.get_gallery_images E ctime fs
                 = Return (JList (AppRoutes.scan_directory ctime fs)))
      by (unfold AppRoutes.get_gallery_images; by rewrite Hm).
    rewrite Hg. simpl.
    destruct (open_fails E metadata_path); [discriminate |]. intros [= <-].
    rewrite lookup_insert_eq.
    repeat split; eauto; try by intros [? [=]].
    unfold AppRoutes.get_gallery_images. by rewrite lookup_insert_eq.
Qed.

Lemma start_up_writes_the_scan_witness :
  let fs : gmap string file := {[ "a.png" := Blob [Byte.x41]; "notes.txt" := Blob [Byte.x43] ]} in
  let fs' := <[metadata_path := JsonText (JList [AppRoutes.scan_entry sample_ctime "a.png"])]> fs in
  AppRoutes.main (scenario HttpTimeout) sample_ctime fs = Return fs' /\
  AppRoutes.get_gallery_images (scenario HttpTimeout) sample_ctime fs'
  = AppRoutes.get_gallery_images (scenario HttpTimeout) sample_ctime fs /\
  AppRoutes.main (scenario HttpTimeout) sample_ctime fs' = Return fs'.
Proof.
  assert (H : AppRoutes.main (scenario HttpTimeout) sample_ctime
                {[ "a.png" := Blob [Byte.x41]; "notes.txt" := Blob [Byte.x43] ]}
              = Return (<[metadata_path :=
                            JsonText (JList [AppRoutes.scan_entry sample_ctime "a.png"])]>
                          {[ "a.png" := Blob [Byte.x41]; "notes.txt" := Blob [Byte.x43] ]}))
    by (vm_compute; reflexivity).
  split; [exact H |].
  exact (proj2 (proj2 (proj2 (start_up_writes_the_scan _ _ _ _ H)))).
Defined.

(* ===================================================================== *)
(** * The form endpoint                                                   *)
(* ===================================================================== *)

Lemma check_predictions_messages response_json r :
  App.check_predictions response_json = Return (Some r) ->
  begins_with_text r = true.
Proof.
  unfold App.check_predictions, mbind, exc_bind.
  repeat case_match; intros [= <-] || discriminate; reflexivity.
Qed.

(** Every error that a run of app.py returns begins with a text of the
    code that is not empty. *)
Lemma app_result_begins_with_text E st prompt negative_prompt style_preset aspect_ratio
    quality :
  begins_with_text
    (fst (App.generate_image_requests E st prompt negative_prompt style_preset
            aspect_ratio quality)) = true.
Proof.
  unfold App.generate_image_requests.
  destruct (truthy_str (access_token E)); simpl; [| reflexivity].
  destruct (post E _) as [[body|]| |s b t|]; simpl; try reflexivity.
  - unfold App.handle_response.
    destruct (App.check_predictions body) as [[r|]|e] eqn:Hc; simpl;
      [by apply check_predictions_messages in Hc | | reflexivity].
    destruct (App.extract_image_data body) as [v|e]; simpl;
      [| by destruct (is_shape_error e)].
    unfold App.save_generated.
    destruct (b64decode E v) as [image_bytes|e]; [| by destruct e].
    destruct (open_fails E _); [reflexivity |].
    by destruct (App.save_image_metadata _ _ _ _ _ _) as [[[]|[]] fs2].
  - unfold App.http_error. destruct b as [err_json|]; [| reflexivity].
    by destruct (_ ≫= _).
Qed.

Lemma begins_with_text_renders str_json str_exn msg :
  begins_with_text (App.Error msg) = true ->
  String.eqb (render str_json str_exn msg) "" = false.
Proof.
  destruct msg as [|[s| |] rest]; simpl; try discriminate.
  destruct s; [discriminate | reflexivity].
Qed.

Lemma app_success_url E st prompt negative_prompt style_preset aspect_ratio quality url :
  fst (App.generate_image_requests E st prompt negative_prompt style_preset
         aspect_ratio quality) = App.ImageUrl url ->
  url = ("/static/generated/" ++ "generated_" ++ uuid4 E ++ ".png")%string.
Proof.
  intros Hu.
  destruct (app_generate_cases E st prompt negative_prompt style_preset aspect_ratio quality)
    as [[_ H2] | (body & v & image_bytes & _ & _ & _ & _ & _ & _ & Hr)];
    [by destruct (H2 url) |].
  rewrite Hu in Hr.
  destruct (App.save_image_metadata _ _ _ _ _ _) as [[[]|e] fs2];
    [by injection Hr | by destruct e].
Qed.

(** X19.  A form without a prompt, or with an empty one, never reaches the
    provider: nothing is sent, no file changes, the result is the error
    "Prompt is required" and one message of category "error" is flashed. *)
Theorem prompt_is_required
    (str_json : json -> string) (str_exn : exn -> string) (E : env) (st : state)
    (form : list (string * string)) :
  assoc "prompt" form = None \/ assoc "prompt" form = Some "" ->
  AppRoutes.handle_generate str_json str_exn E st form
  = (AppRoutes.Page (App.Error [Text "Prompt is required"])
       [([Text "Prompt is required for generation!"], "error")], st).
Proof.
  intros [H | H]; unfold AppRoutes.handle_generate; rewrite H; reflexivity.
Qed.

Lemma prompt_is_required_witness :
  AppRoutes.handle_generate (fun _ => "") (fun _ => "")
    (scenario (HttpOk (Some (body_of (JDict [("bytesBase64Encoded", JStr "QUJD")])))))
    (State ∅ []) [("prompt", ""); ("quality", "hd")]
  = (AppRoutes.Page (App.Error [Text "Prompt is required"])
       [([Text "Prompt is required for generation!"], "error")], State ∅ []).
Proof.
  exact (prompt_is_required (fun _ => "") (fun _ => "")
           (scenario (HttpOk (Some (body_of (JDict [("bytesBase64Encoded", JStr "QUJD")])))))
           (State ∅ []) [("prompt", ""); ("quality", "hd")] (or_intror eq_refl)).
Defined.

(** X20.  With a prompt, the form endpoint flashes exactly one message for
    the result it renders: of category "error", "Generation failed: " and the
    error text, for an error result; of category "success" for an address.
    No error text of the code is empty and no address is, so neither message
    is ever left out, however values and exceptions print. *)
Theorem flash_matches_result
    (str_json : json -> string) (str_exn : exn -> string) (E : env) (st : state)
    (form : list (string * string)) (prompt : string) :
  assoc "prompt" form = Some prompt -> prompt <> "" ->
  let page := fst (AppRoutes.handle_generate str_json str_exn E st form) in
  match AppRoutes.generation_result page with
  | App.Error msg =>
      AppRoutes.flashed page = [(Text "Generation failed: " :: msg, "error")]
  | App.ImageUrl url =>
      AppRoutes.flashed page = [([Text "Image generated successfully!"], "success")]
  | App.Uncaught _ => AppRoutes.flashed page = []
  end.
Proof.
  intros Hp Hne. cbv zeta. unfold AppRoutes.handle_generate. rewrite Hp.
  simpl truthy_str. destruct (String.eqb_spec prompt ""); [done |]. simpl negb. cbv iota.
  match goal with
  | |- context [App.generate_image_requests ?a ?b ?c ?d ?e ?f ?g] =>
      pose proof (app_result_begins_with_text a b c d e f g) as Hb;
      pose proof (app_success_url a b c d e f g) as Hu;
      destruct (App.generate_image_requests a b c d e f g) as [[url|msg|ex] st']
  end; simpl in *.
  - by rewrite (Hu url eq_refl).
  - by rewrite (begins_with_text_renders _ _ _ Hb).
  - reflexivity.
Qed.

Lemma flash_matches_result_witness :
  let E := scenario (HttpOk (Some (body_of (JStr "QUJD")))) in
  let page := fst (AppRoutes.handle_generate (fun _ => "") (fun _ => "") E (State ∅ [])
                     [("prompt", "a red fox")]) in
  AppRoutes.generation_result page = App.Error App.parse_failure /\
  AppRoutes.flashed page = [(Text "Generation failed: " :: App.parse_failure, "error")].
Proof.
  split; [reflexivity |].
  exact (flash_matches_result (fun _ => "") (fun _ => "")
           (scenario (HttpOk (Some (body_of (JStr "QUJD"))))) (State ∅ [])
           [("prompt", "a red fox")] "a red fox" eq_refl ltac:(discriminate)).
Defined.

(** X21.  A form that gives only a prompt is sent with the defaults: ratio
    1:1 and quality "standard", so 1024 by 1024 and 30 steps, the guidance
    scale 7.0 and the prompt as it came.  An empty [style_preset] field counts
    as no preset. *)
Theorem form_defaults
    (str_json : json -> string) (str_exn : exn -> string) (E : env) (st : state)
    (form : list (string * string)) (prompt : string) :
  assoc "prompt" form = Some prompt -> prompt <> "" ->
  assoc "negative_prompt" form = None ->
  assoc "aspect_ratio" form = None ->
  assoc "quality" form = None ->
  assoc "style_preset" form = None \/ assoc "style_preset" form = Some "" ->
  truthy_str (access_token E) = true ->
  sent (snd (AppRoutes.handle_generate str_json str_exn E st form))
  = (sent st
       ++ [JDict [ ("instances", JList [JDict [("prompt", JStr prompt)]]);
                   ("parameters",
                    JDict [ ("sampleCount", JInt 1); ("steps", JInt 30);
                            ("height", JInt 1024); ("width", JInt 1024);
                            ("guidance_scale", JFloat 7.0%float) ]) ]])%list.
Proof.
  intros Hp Hne Hn Ha Hq Hs Ht. unfold AppRoutes.handle_generate, AppRoutes.form_get.
  rewrite Hp, Hn, Ha, Hq. simpl truthy_str.
  destruct (String.eqb_spec prompt ""); [done |]. simpl negb. cbv iota.
  assert (Hstyle : (if truthy (JStr match assoc "style_preset" form with
                                    | Some v => v
                                    | None => ""
                                    end)
                    then Some match assoc "style_preset" form with
                              | Some v => v
                              | None => ""
                              end
                    else None) = None)
    by (destruct Hs as [-> | ->]; reflexivity).
  rewrite Hstyle.
  pose proof (app_sent E st prompt None None "1:1" "standard") as Hsent.
  rewrite Ht in Hsent.
  by destruct (App.generate_image_requests E st prompt None None "1:1" "standard").
Qed.

Lemma form_defaults_witness :
  let E := scenario HttpTimeout in
  sent (snd (AppRoutes.handle_generate (fun _ => "") (fun _ => "") E (State ∅ [])
               [("prompt", "a red fox"); ("style_preset", "")]))
  = [JDict [ ("instances", JList [JDict [("prompt", JStr "a red fox")]]);
             ("parameters",
              JDict [ ("sampleCount", JInt 1); ("steps", JInt 30);
                      ("height", JInt 1024); ("width", JInt 1024);
                      ("guidance_scale", JFloat 7.0%float) ]) ]].
Proof.
  exact (form_defaults (fun _ => "") (fun _ => "") (scenario HttpTimeout) (State ∅ [])
           [("prompt", "a red fox"); ("style_preset", "")] "a red fox"
           eq_refl ltac:(discriminate) eq_refl eq_refl eq_refl (or_intror eq_refl) eq_refl).
Defined.

(* ===================================================================== *)
(** * The texture endpoint                                                *)
(* ===================================================================== *)

Lemma forbidden_separators name :
  any_char_in forbidden_chars name = false ->
  has_char "/" name = false /\ has_char "\" name = false.
Proof.
  let f := eval vm_compute in forbidden_chars in change forbidden_chars with f.
  cbn [any_char_in]. intros H.
  repeat (apply orb_false_iff in H as [? H]). by split.
Qed.

Lemma validate_cases data :
  match validate data with
  | Raise e => e = AttributeError
  | Return (inl r) =>
      r = Refused "Missing 'prompt' or 'output_filename' in request." 400 \/
      r = Refused "Invalid output filename." 400
  | Return (inr (prompt, name)) =>
      (exists d, data = JDict d /\ assoc "prompt" d = Some prompt /\
                 assoc "output_filename" d = Some (JStr name)) /\
      truthy prompt = true /\ endswith ".png" name = true /\
      any_char_in forbidden_chars name = false
  end.
Proof.
  unfold validate, mbind, exc_bind, py_get.
  destruct data as [| | | | | |d]; try reflexivity.
  destruct (assoc "prompt" d) as [p|] eqn:Hp; [| by left].
  destruct (assoc "output_filename" d) as [o|] eqn:Ho;
    [| destruct (truthy p); by left].
  destruct (truthy p) eqn:Htp; [| by left].
  destruct (truthy o) eqn:Hto; [| by left].
  cbn [negb orb].
  destruct o as [| | | |name| |]; try reflexivity.
  destruct (endswith ".png" name) eqn:He; [| by right].
  destruct (any_char_in forbidden_chars name) eqn:Hc; [by right |].
  cbn [negb orb]. eauto 10.
Qed.

(** X22.  A request that the checks of [/generate_texture] let through is an
    object whose prompt is not empty and whose file name ends in [.png] and
    holds none of the forbidden characters; in particular it holds neither
    slash, so it names no file of another directory. *)
Theorem accepted_request_is_safe (data prompt : json) (name : string) :
  validate data = Return (inr (prompt, name)) ->
  (exists d, data = JDict d /\ assoc "prompt" d = Some prompt /\
             assoc "output_filename" d = Some (JStr name)) /\
  truthy prompt = true /\
  endswith ".png" name = true /\
  any_char_in forbidden_chars name = false /\
  has_char "/" name = false /\ has_char "\" name = false.
Proof.
  intros Hv. pose proof (validate_cases data) as H. rewrite Hv in H.
  destruct H as (Hd & Hp & He & Hc).
  repeat (split; [assumption |]). by apply forbidden_separators.
Qed.

Lemma accepted_request_is_safe_witness :
  validate (JDict [("prompt", JInt 7); ("output_filename", JStr "oak.png")])
  = Return (inr (JInt 7, "oak.png")) /\
  truthy (JInt 7) = true /\ endswith ".png" "oak.png" = true /\
  has_char "/" "oak.png" = false.
Proof.
  pose proof (accepted_request_is_safe
                (JDict [("prompt", JInt 7); ("output_filename", JStr "oak.png")])
                (JInt 7) "oak.png" eq_refl) as (_ & Hp & He & _ & Hs & _).
  exact (conj eq_refl (conj Hp (conj He Hs))).
Defined.

(** X23.  When either texture endpoint answers with status 400, nothing was
    posted to the provider and no file was touched, and the other endpoint
    gives the same answer: either the framework refused the body of the
    request with 400 before the view function ran, or the answer is one of
    the two refusals of the checks.  A request that passes the checks is
    answered with the path of the file named in it, or with "Failed to
    generate texture." and status 500, or ends in an exception. *)
Theorem bad_request_has_no_effect (E : env) (st : state) (body : request_json) :
  let tex := serve TextureGenerator.generate_texture E st body in
  let code := serve Code.generate_texture E st body in
  (status_of (fst tex) = 400 \/ status_of (fst code) = 400 ->
   tex = code /\ snd tex = st /\
   ((body = Unparsed 400 /\ fst tex = ErrorPage 400) \/
    fst tex = Answer (Refused "Missing 'prompt' or 'output_filename' in request." 400) \/
    fst tex = Answer (Refused "Invalid output filename." 400))) /\
  (forall data prompt name,
     body = Parsed data -> validate data = Return (inr (prompt, name)) ->
     (fst tex = Answer (FilePath name) \/
      fst tex = Answer (Refused "Failed to generate texture." 500) \/
      exists e, fst tex = Answer (ServerError e)) /\
     (fst code = Answer (FilePath name) \/
      fst code = Answer (Refused "Failed to generate texture." 500) \/
      exists e, fst code = Answer (ServerError e))).
Proof.
  cbv zeta. split.
  - destruct body as [data|c]; simpl.
    + unfold TextureGenerator.generate_texture, Code.generate_texture.
      pose proof (validate_cases data) as Hv.
      destruct (validate data) as [[r|[p n]]|e]; simpl.
      * intros _. destruct Hv as [-> | ->]; auto.
      * intros [H | H]; exfalso.
        -- by destruct (TextureGenerator.generate_image_requests _ _ _ _) as [[?|?|?] st'].
        -- by destruct (Code.generate_image_requests _ _ _ _) as [[?|?|?] st'].
      * intros [H | H]; discriminate.
    + intros [-> | ->]; auto.
  - intros data prompt name -> Hv. simpl.
    unfold TextureGenerator.generate_texture, Code.generate_texture. rewrite Hv. split.
    + pose proof (texture_generator_spec E st
                    (JStr (py_str E prompt ++ TextureGenerator.suffix)) name) as Hs.
      destruct (TextureGenerator.generate_image_requests _ _ _ _) as [[n|log|e] st'];
        simpl in *; eauto.
      destruct Hs as [-> _]. auto.
    + pose proof (code_spec E st prompt name) as Hs.
      destruct (Code.generate_image_requests _ _ _ _) as [[n|log|e] st'];
        simpl in *; eauto.
      destruct Hs as [-> _]. auto.
Qed.

Lemma bad_request_has_no_effect_witness :
  let E := scenario (HttpOk (Some (body_of (JDict [("bytesBase64Encoded", JStr png_text)])))) in
  let data := JDict [("prompt", JStr "oak wood"); ("output_filename", JStr "../oak.png")] in
  let tex := serve TextureGenerator.generate_texture E (State ∅ []) (Parsed data) in
  let code := serve Code.generate_texture E (State ∅ []) (Parsed data) in
  status_of (fst tex) = 400 /\
  tex = code /\ snd tex = State ∅ [] /\
  ((Parsed data = Unparsed 400 /\ fst tex = ErrorPage 400) \/
   fst tex = Answer (Refused "Missing 'prompt' or 'output_filename' in request." 400) \/
   fst tex = Answer (Refused "Invalid output filename." 400)).
Proof.
  split; [reflexivity |].
  exact (proj1 (bad_request_has_no_effect
                  (scenario (HttpOk (Some (body_of
                     (JDict [("bytesBase64Encoded", JStr png_text)])))))
                  (State ∅ [])
                  (Parsed (JDict [ ("prompt", JStr "oak wood");
                                   ("output_filename", JStr "../oak.png") ])))
               (or_introl eq_refl)).
Defined.

(* ===================================================================== *)
(** * What flattening does to a pixel                                     *)
(* ===================================================================== *)

(** One band of an opaque pixel laid over white: the library's arithmetic
    gives the band back. *)
Lemma opaque_band (s e : Z) :
  0 <= s <= 255 -> e = s * 32640 + 16384 ->
  Z.shiftr (shift_for_div255 e) precision_bits = s.
Proof.
  intros Hs ->.
  assert (Hall : forallb (fun n => (Z.shiftr (shift_for_div255 (Z.of_nat n * 32640 + 16384))
                                               precision_bits =? Z.of_nat n)%Z)
                         (seq 0 256) = true) by (vm_compute; reflexivity).
  rewrite forallb_forall in Hall.
  specialize (Hall (Z.to_nat s)).
  rewrite Z2Nat.id in Hall by lia.
  apply Z.eqb_eq, Hall, in_seq. lia.
Qed.

Lemma composite_on_white (p : pixel) :
  let white := Pixel 255 255 255 255 in
  (alpha p = 0 -> composite_pixel white p = white) /\
  (alpha p = 255 -> 0 <= red p <= 255 -> 0 <= green p <= 255 -> 0 <= blue p <= 255 ->
   composite_pixel white p = p).
Proof.
  cbv zeta. destruct p as [r g b a]. simpl. split; intros ->.
  - reflexivity.
  - intros Hr Hg Hb. unfold composite_pixel. simpl.
    f_equal; apply opaque_band; try assumption;
      match goal with
      | |- ?x * ?c1 + 255 * ?c2 + ?c3 = _ =>
          let v1 := eval vm_compute in c1 in
          let v2 := eval vm_compute in c2 in
          let v3 := eval vm_compute in c3 in
          change (x * v1 + 255 * v2 + v3 = x * 32640 + 16384)
      end; lia.
Qed.

Lemma zip_on_repeat_lookup f (w : pixel) n (l : list pixel) (i : nat) (q : pixel) :
  zip_pixels f (repeat w n) l !! i = Some q ->
  exists p, l !! i = Some p /\ q = f w p.
Proof.
  revert l i. induction n as [|n IH]; intros [|p l] [|i]; simpl; try discriminate.
  - intros [= <-]. eauto.
  - apply IH.
Qed.

Lemma zip_on_repeat_length f (w : pixel) n (l : list pixel) :
  length (zip_pixels f (repeat w n) l) = Nat.min n (length l).
Proof.
  revert l. induction n as [|n IH]; intros [|p l]; simpl; try reflexivity.
  by rewrite IH.
Qed.

Lemma map_lookup {A B} (f : A -> B) (l : list A) (i : nat) (q : B) :
  map f l !! i = Some q -> exists p, l !! i = Some p /\ q = f p.
Proof.
  revert i. induction l as [|x l IH]; intros [|i]; simpl; try discriminate.
  - intros [= <-]. eauto.
  - apply IH.
Qed.

(** One band of a pixel laid over white: the library's arithmetic gives the
    rounded mix, for every band and every alpha that is not 0. *)
Lemma band_over_white (s a e : Z) :
  0 <= s <= 255 -> 0 < a <= 255 ->
  e = s * (a * 128) + 255 * (255 * 128 - a * 128) + 16384 ->
  Z.shiftr (shift_for_div255 e) precision_bits = over_white s a.
Proof.
  intros Hs Ha ->.
  assert (Hall : forallb
            (fun n => forallb
               (fun m => (Z.shiftr (shift_for_div255
                                      (Z.of_nat n * (Z.of_nat m * 128)
                                       + 255 * (255 * 128 - Z.of_nat m * 128) + 16384))
                                   precision_bits
                          =? over_white (Z.of_nat n) (Z.of_nat m))%Z)
               (seq 1 255))
            (seq 0 256) = true) by (vm_compute; reflexivity).
  rewrite forallb_forall in Hall.
  assert (Hn : In (Z.to_nat s) (seq 0 256)) by (apply in_seq; lia).
  specialize (Hall _ Hn). rewrite forallb_forall in Hall.
  assert (Hm : In (Z.to_nat a) (seq 1 255)) by (apply in_seq; lia).
  specialize (Hall _ Hm). rewrite !Z2Nat.id in Hall by lia.
  by apply Z.eqb_eq.
Qed.

Lemma composite_over_white (p : pixel) :
  0 <= red p <= 255 -> 0 <= green p <= 255 -> 0 <= blue p <= 255 ->
  0 <= alpha p <= 255 ->
  composite_pixel (Pixel 255 255 255 255) p
  = Pixel (over_white (red p) (alpha p)) (over_white (green p) (alpha p))
          (over_white (blue p) (alpha p)) 255.
Proof.
  destruct p as [r g b a]. cbn [red green blue alpha]. intros Hr Hg Hb Ha.
  unfold composite_pixel. cbn [red green blue alpha]. cbv zeta.
  destruct (Z.eqb_spec a 0) as [-> | Hne].
  - unfold over_white. by rewrite !Z.mul_0_r.
  - assert (Hc : a * 255 * 255 * Z.shiftl 1 precision_bits / (a * 255 + 255 * (255 - a))
                 = a * 128).
    { change (Z.shiftl 1 precision_bits) with 128.
      replace (a * 255 + 255 * (255 - a)) with 65025 by lia.
      replace (a * 255 * 255 * 128) with (a * 128 * 65025) by lia.
      by apply Z.div_mul. }
    rewrite Hc.
    replace (a * 255 + 255 * (255 - a) + 128) with 65153 by lia.
    f_equal; apply band_over_white; try lia; reflexivity.
Qed.

(** What [process_image] computes: the picture is decoded and read as RGBA,
    and each pixel of the result is the composite of white and the pixel at
    the same place, without its alpha band. *)
Lemma process_image_pixels E image_b64_data img :
  TextureGenerator.process_image E image_b64_data = Return img ->
  exists image_bytes opened source,
    b64decode E image_b64_data = Return image_bytes /\
    Image_open E image_bytes = Some opened /\
    (if mode_eqb (im_mode opened) RGBA then source = im_data opened
     else to_rgba E opened = Some source) /\
    im_size img = im_size opened /\
    length (im_data img)
    = Nat.min (Z.to_nat (fst (im_size opened) * snd (im_size opened))) (length source) /\
    forall (i : nat) (q : pixel),
      im_data img !! i = Some q ->
      exists p,
        source !! i = Some p /\
        q = Pixel (red (composite_pixel (Pixel 255 255 255 255) p))
                  (green (composite_pixel (Pixel 255 255 255 255) p))
                  (blue (composite_pixel (Pixel 255 255 255 255) p)) 255.
Proof.
  unfold TextureGenerator.process_image, mbind, exc_bind.
  destruct (b64decode E image_b64_data) as [image_bytes|] eqn:Hb; [| discriminate].
  destruct (Image_open E image_bytes) as [opened|] eqn:Ho; [| discriminate].
  intros H. exists image_bytes, opened.
  assert (Hsrc : exists source,
             (if mode_eqb (im_mode opened) RGBA then source = im_data opened
              else to_rgba E opened = Some source) /\
             alpha_composite (Image_new_RGBA (im_size opened) (Pixel 255 255 255 255))
               (Image RGBA (im_size opened) source) ≫= (fun c => Return (convert_RGB c))
             = Return img).
  { destruct (mode_eqb (im_mode opened) RGBA) eqn:Hm; simpl in H.
    - exists (im_data opened). split; [reflexivity |].
      destruct opened as [m sz d]. destruct m; try discriminate. exact H.
    - unfold convert_RGBA in H.
      destruct (to_rgba E opened) as [px|]; [| discriminate]. eauto. }
  destruct Hsrc as (source & Hsource & Hc). exists source.
  do 3 (split; [done |]).
  unfold alpha_composite, mbind, exc_bind in Hc. simpl in Hc.
  destruct (size_eqb _ _); [| discriminate]. injection Hc as <-.
  split; [reflexivity |]. split.
  - simpl. rewrite length_map. apply zip_on_repeat_length.
  - intros i q Hq. simpl in Hq.
    apply map_lookup in Hq as (c & Hc & ->).
    apply zip_on_repeat_lookup in Hc as (p & Hp & ->). eauto.
Qed.

(** X24.  What texture_generator.py makes of the decoded picture: the
    bitmap it saves has the size of the picture, and each of its pixels comes
    from the pixel at the same place of the picture read as RGBA: white where
    that pixel is fully transparent, its own colour where it is fully opaque,
    and alpha 255 in every case. *)
Theorem flattening_onto_white
    (E : env) (image_b64_data : json) (img : image) :
  TextureGenerator.process_image E image_b64_data = Return img ->
  exists image_bytes opened source,
    b64decode E image_b64_data = Return image_bytes /\
    Image_open E image_bytes = Some opened /\
    (if mode_eqb (im_mode opened) RGBA then source = im_data opened
     else to_rgba E opened = Some source) /\
    im_size img = im_size opened /\
    length (im_data img)
    = Nat.min (Z.to_nat (fst (im_size opened) * snd (im_size opened))) (length source) /\
    forall (i : nat) (q : pixel),
      im_data img !! i = Some q ->
      exists p,
        source !! i = Some p /\ alpha q = 255 /\
        (alpha p = 0 -> q = Pixel 255 255 255 255) /\
        (alpha p = 255 ->
         0 <= red p <= 255 -> 0 <= green p <= 255 -> 0 <= blue p <= 255 ->
         q = p).
Proof.
  intros H.
  destruct (process_image_pixels E image_b64_data img H)
    as (image_bytes & opened & source & Hb & Ho & Hsource & Hsize & Hlen & Hpx).
  exists image_bytes, opened, source.
  do 5 (split; [assumption |]).
  intros i q Hq. destruct (Hpx i q Hq) as (p & Hp & ->).
  exists p. split; [exact Hp |]. split; [reflexivity |].
  pose proof (composite_on_white p) as [H0 H255]. split.
  - intros Ha. by rewrite (H0 Ha).
  - intros Ha Hred Hgreen Hblue. rewrite (H255 Ha Hred Hgreen Hblue).
    destruct p as [r g b a]. simpl in *. by subst a.
Qed.

Lemma flattening_onto_white_witness :
  let E := scenario HttpTimeout in
  let img := Image RGB (2, 1) [Pixel 255 255 255 255; Pixel 227 177 152 255] in
  TextureGenerator.process_image E (JStr png_text) = Return img /\
  exists image_bytes opened source,
    b64decode E (JStr png_text) = Return image_bytes /\
    Image_open E image_bytes = Some opened /\
    (if mode_eqb (im_mode opened) RGBA then source = im_data opened
     else to_rgba E opened = Some source) /\
    im_size img = im_size opened /\
    length (im_data img)
    = Nat.min (Z.to_nat (fst (im_size opened) * snd (im_size opened))) (length source) /\
    forall (i : nat) (q : pixel),
      im_data img !! i = Some q ->
      exists p,
        source !! i = Some p /\ alpha q = 255 /\
        (alpha p = 0 -> q = Pixel 255 255 255 255) /\
        (alpha p = 255 ->
         0 <= red p <= 255 -> 0 <= green p <= 255 -> 0 <= blue p <= 255 ->
         q = p).
Proof.
  split; [reflexivity |].
  exact (flattening_onto_white (scenario HttpTimeout) (JStr png_text)
           (Image RGB (2, 1) [Pixel 255 255 255 255; Pixel 227 177 152 255]) eq_refl).
Defined.

(* ===================================================================== *)
(** * The file that the texture script writes                             *)
(* ===================================================================== *)

(** C8.  Whenever the texture script saves a file, what it has written is
    the PNG of an RGB bitmap, which has no alpha band, of the size of the
    decoded picture, and each of its pixels is the pixel at the same place of
    the picture, read as RGBA, flattened onto white: for bands and alpha
    within 0..255 each colour band is the mix of the band and white weighted
    by the alpha, rounded to the nearest integer, so a fully transparent
    pixel becomes white and a fully opaque one keeps its colour.  This holds
    whatever the alpha values of the decoded picture are. *)
Theorem texture_output_is_opaque
    (E : env) (st : state) (prompt : json) (output_filename name : string) :
  let run := TextureGenerator.generate_image_requests E st prompt output_filename in
  fst run = Saved name ->
  exists img image_b64_data image_bytes opened source,
    files (snd run) !! name = Some (Png img) /\
    im_mode img = RGB /\
    fully_opaque img = true /\
    b64decode E image_b64_data = Return image_bytes /\
    Image_open E image_bytes = Some opened /\
    (if mode_eqb (im_mode opened) RGBA then source = im_data opened
     else to_rgba E opened = Some source) /\
    im_size img = im_size opened /\
    length (im_data img)
    = Nat.min (Z.to_nat (fst (im_size opened) * snd (im_size opened))) (length source) /\
    forall (i : nat) (q : pixel),
      im_data img !! i = Some q ->
      exists p,
        source !! i = Some p /\
        alpha q = 255 /\
        (alpha p = 0 -> q = Pixel 255 255 255 255) /\
        (0 <= red p <= 255 -> 0 <= green p <= 255 -> 0 <= blue p <= 255 ->
         0 <= alpha p <= 255 ->
         q = Pixel (over_white (red p) (alpha p)) (over_white (green p) (alpha p))
                   (over_white (blue p) (alpha p)) 255 /\
         (alpha p = 255 -> q = p)).
Proof.
  cbv zeta. intros Hr.
  pose proof (texture_generator_spec E st prompt output_filename) as Hs.
  cbv zeta in Hs. rewrite Hr in Hs. destruct Hs as (-> & d & img & Hp & ->).
  destruct (process_image_opaque E d img Hp) as (Hmode & Hopaque & _).
  destruct (process_image_pixels E d img Hp)
    as (image_bytes & opened & source & Hb & Ho & Hsource & Hsize & Hlen & Hpx).
  exists img, d, image_bytes, opened, source.
  split; [apply lookup_insert_eq |].
  do 7 (split; [assumption |]).
  intros i q Hq. destruct (Hpx i q Hq) as (p & Hsrc & ->).
  exists p. split; [exact Hsrc |]. split; [reflexivity |]. split.
  - intros Ha. pose proof (composite_on_white p) as [H0 _]. by rewrite (H0 Ha).
  - intros Hred Hgreen Hblue Halpha.
    rewrite (composite_over_white p Hred Hgreen Hblue Halpha). cbn [red green blue].
    split; [reflexivity |]. intros Ha.
    pose proof (composite_on_white p) as [_ H255].
    pose proof (composite_over_white p Hred Hgreen Hblue Halpha) as Hw.
    rewrite (H255 Ha Hred Hgreen Hblue) in Hw.
    destruct p as [r g b a]. cbn [red green blue alpha] in *. subst a.
    by injection Hw as <- <- <-.
Qed.

Lemma texture_output_is_opaque_witness :
  let E := scenario (HttpOk (Some (body_of (JDict [("image", JDict [("bytesBase64Encoded", JStr png_text)])])))) in
  let run := TextureGenerator.generate_image_requests E (State ∅ []) (JStr "oak wood") "oak.png" in
  Image_open E png_bytes = Some glass /\
  im_data glass = [Pixel 10 20 30 0; Pixel 200 100 50 128] /\
  files (snd run) !! "oak.png"
  = Some (Png (Image RGB (2, 1) [Pixel 255 255 255 255; Pixel 227 177 152 255])) /\
  (over_white 200 128, over_white 100 128, over_white 50 128) = (227, 177, 152) /\
  exists img image_b64_data image_bytes opened source,
    files (snd run) !! "oak.png" = Some (Png img) /\
    im_mode img = RGB /\
    fully_opaque img = true /\
    b64decode E image_b64_data = Return image_bytes /\
    Image_open E image_bytes = Some opened /\
    (if mode_eqb (im_mode opened) RGBA then source = im_data opened
     else to_rgba E opened = Some source) /\
    im_size img = im_size opened /\
    length (im_data img)
    = Nat.min (Z.to_nat (fst (im_size opened) * snd (im_size opened))) (length source) /\
    forall (i : nat) (q : pixel),
      im_data img !! i = Some q ->
      exists p,
        source !! i = Some p /\
        alpha q = 255 /\
        (alpha p = 0 -> q = Pixel 255 255 255 255) /\
        (0 <= red p <= 255 -> 0 <= green p <= 255 -> 0 <= blue p <= 255 ->
         0 <= alpha p <= 255 ->
         q = Pixel (over_white (red p) (alpha p)) (over_white (green p) (alpha p))
                   (over_white (blue p) (alpha p)) 255 /\
         (alpha p = 255 -> q = p)).
Proof.
  split; [reflexivity |]. split; [reflexivity |]. split; [reflexivity |].
  split; [reflexivity |].
  exact (texture_output_is_opaque
           (scenario (HttpOk (Some (body_of (JDict [("image", JDict [("bytesBase64Encoded", JStr png_text)])])))))
           (State ∅ []) (JStr "oak wood") "oak.png" "oak.png" eq_refl).
Defined.

(* ===================================================================== *)
(** * The two texture scripts side by side                                *)
(* ===================================================================== *)

(** X25.  code.py saves a file only on one path: the provider answered 200
    with an object that has no [error] key and whose [predictions] is a list
    beginning with an object; the value of its [bytesBase64Encoded] was
    decoded, and the file of the caller's name holds exactly the decoded
    bytes: they are not read as a picture and not flattened. *)
Theorem code_writes_decoded_bytes
    (E : env) (st : state) (prompt : json) (output_filename name : string) :
  let run := Code.generate_image_requests E st prompt output_filename in
  fst run = Saved name ->
  name = output_filename /\
  exists (B p : dict) (rest : list json) (v : json) (image_bytes : bytes),
    post E (texture_request prompt) = HttpOk (Some (JDict B)) /\
    assoc "error" B = None /\
    assoc "predictions" B = Some (JList (JDict p :: rest)) /\
    assoc "bytesBase64Encoded" p = Some v /\
    b64decode E v = Return image_bytes /\
    files (snd run) = <[output_filename := Blob image_bytes]> (files st).
Proof.
  cbv zeta. unfold Code.generate_image_requests.
  destruct (truthy_str (access_token E)); simpl; [| discriminate].
  destruct (post E _) as [[body|]| | |]; simpl; try discriminate.
  unfold Code.handle_response.
  destruct body as [| | | | | |B]; simpl; try discriminate.
  - by destruct (contains _ _).
  - by destruct (existsb _ _).
  - destruct (assoc "error" B) as [err|] eqn:He; [by destruct (_ ≫= _) |].
    unfold Code.extract_image_data, mbind, exc_bind. simpl.
    destruct (assoc "predictions" B) as [[| | | |s|[|[| | | | | |p] rest]|d]|] eqn:Hp;
      simpl; try discriminate.
    + destruct s; discriminate.
    + destruct (assoc "bytesBase64Encoded" p) as [v|] eqn:Hv; simpl; [| discriminate].
      unfold Code.save_image.
      destruct (b64decode E v) as [image_bytes|[]] eqn:Hb; simpl; try discriminate.
      destruct (open_fails E output_filename); simpl; [discriminate |].
      intros [= <-]. split; [reflexivity |]. eauto 12.
Qed.

Lemma code_writes_decoded_bytes_witness :
  let E := scenario (HttpOk (Some (body_of (JDict [("bytesBase64Encoded", JStr "QUJD")])))) in
  let run := Code.generate_image_requests E (State ∅ []) (JStr "oak wood") "oak.png" in
  fst run = Saved "oak.png" /\
  "oak.png" = "oak.png" /\
  exists (B p : dict) (rest : list json) (v : json) (image_bytes : bytes),
    post E (texture_request (JStr "oak wood")) = HttpOk (Some (JDict B)) /\
    assoc "error" B = None /\
    assoc "predictions" B = Some (JList (JDict p :: rest)) /\
    assoc "bytesBase64Encoded" p = Some v /\
    b64decode E v = Return image_bytes /\
    files (snd run) = <["oak.png" := Blob image_bytes]> ∅.
Proof.
  split; [reflexivity |].
  exact (code_writes_decoded_bytes
           (scenario (HttpOk (Some (body_of (JDict [("bytesBase64Encoded", JStr "QUJD")])))))
           (State ∅ []) (JStr "oak wood") "oak.png" "oak.png" eq_refl).
Defined.

(** X26.  In both texture scripts an [error] key in the body of a 200 answer
    ends the run before the predictions are looked at: no file is written,
    even when the body carries an image.  The run logs the [message] of the
    error object (or "Unknown API error in JSON") and returns nothing; when
    the value under [error] is no object the call raises [AttributeError]. *)
Theorem error_field_stops_the_run
    (E : env) (st : state) (prompt : json) (output_filename : string)
    (B : dict) (err : json) :
  let tex := TextureGenerator.generate_image_requests E st prompt output_filename in
  let code := Code.generate_image_requests E st prompt output_filename in
  truthy_str (access_token E) = true ->
  post E (texture_request prompt) = HttpOk (Some (JDict B)) ->
  assoc "error" B = Some err ->
  files (snd tex) = files st /\ files (snd code) = files st /\
  fst code = fst tex /\
  fst tex
  = match err with
    | JDict e =>
        Aborted [ Text "API Error in Response: ";
                  ShowJson (match assoc "message" e with
                            | Some m => m
                            | None => JStr "Unknown API error in JSON"
                            end) ]
    | _ => Crashed AttributeError
    end.
Proof.
  cbv zeta. intros Ht Hp He.
  unfold TextureGenerator.generate_image_requests, Code.generate_image_requests.
  rewrite Ht, Hp. simpl negb. cbv iota.
  unfold TextureGenerator.handle_response, Code.handle_response. simpl. rewrite He. simpl.
  destruct err; simpl; auto.
Qed.

Lemma error_field_stops_the_run_witness :
  let body := JDict [ ("error", JDict [("message", JStr "quota")]);
                      ("predictions", JList [JDict [("bytesBase64Encoded", JStr png_text)]]) ] in
  let E := scenario (HttpOk (Some body)) in
  let tex := TextureGenerator.generate_image_requests E (State ∅ []) (JStr "oak wood") "oak.png" in
  files (snd tex) = ∅ /\
  fst tex = Aborted [Text "API Error in Response: "; ShowJson (JStr "quota")].
Proof.
  pose proof (error_field_stops_the_run
                (scenario (HttpOk (Some (JDict
                   [ ("error", JDict [("message", JStr "quota")]);
                     ("predictions",
                      JList [JDict [("bytesBase64Encoded", JStr png_text)]]) ]))))
                (State ∅ []) (JStr "oak wood") "oak.png" _ _ eq_refl eq_refl eq_refl)
    as (Hf & _ & _ & Hr).
  exact (conj Hf Hr).
Defined.

(* ===================================================================== *)
(** * Generating, then deleting                                           *)
(* ===================================================================== *)

Lemma filter_all {A} (f : A -> bool) (l : list A) :
  Forall (fun x => f x = true) l -> List.filter f l = l.
Proof.
  induction 1 as [|x l Hx _ IH]; [reflexivity |]. simpl. by rewrite Hx, IH.
Qed.

(** X27.  Deleting the image that a run has just saved undoes the run on
    the directory: when the metadata document was a list of objects with no
    entry for the new name, no file of that name existed, the sanitiser leaves
    the name as it is and both the removal and the writing of the document
    go through, the answer is 200 and every file, the document included, is
    as it was before the run. *)
Theorem generate_then_delete
    (E : env) (st : state) (prompt : string) (negative_prompt style_preset : option string)
    (aspect_ratio quality url : string) (l : list json) :
  let unique_filename := ("generated_" ++ uuid4 E ++ ".png")%string in
  let run := App.generate_image_requests E st prompt negative_prompt style_preset
               aspect_ratio quality in
  fst run = App.ImageUrl url ->
  files st !! unique_filename = None ->
  files st !! metadata_path = Some (JsonText (JList l)) ->
  Forall (fun item => is_dict item = true) l ->
  Forall (fun item => entry_is_for unique_filename item = false) l ->
  secure_filename E unique_filename = unique_filename ->
  remove_fails E unique_filename = false ->
  open_fails E metadata_path = false ->
  App.delete_image E (files (snd run)) unique_filename
  = (App.Response true None 200, files st).
Proof.
  cbv zeta. intros Hu Hnew Hmeta Hd Hnone Hsec Hrm Ho.
  pose proof (generated_name_not_metadata (uuid4 E)) as Hne.
  destruct (app_generate_cases E st prompt negative_prompt style_preset aspect_ratio quality)
    as [[_ H2] | (body & v & image_bytes & _ & _ & _ & _ & _ & _ & Hr)];
    [by destruct (H2 url) |].
  rewrite Hu, save_image_metadata_result in Hr. cbv zeta in Hr.
  rewrite generation_entry_eq in Hr.
  rewrite lookup_insert_ne, Hmeta, Ho in Hr by done.
  injection Hr as _ ->.
  set (entry := JDict (generation_entry E prompt style_preset aspect_ratio quality)).
  assert (Hentry : entry_is_for ("generated_" ++ uuid4 E ++ ".png") entry = true)
    by (unfold entry_is_for, entry, generation_entry; simpl; apply String.eqb_refl).
  assert (Hnonempty : String.eqb ("generated_" ++ uuid4 E ++ ".png") "" = false)
    by reflexivity.
  unfold App.delete_image. rewrite Hnonempty, Hsec.
  unfold App.path_exists, App.os_remove. rewrite Hnonempty, Hrm.
  rewrite lookup_insert_ne, lookup_insert_eq by done. cbn [negb].
  rewrite delete_insert_ne, delete_insert_id by done.
  rewrite lookup_insert_eq. simpl json_load. unfold mbind, exc_bind, App.filter_metadata.
  rewrite filter_items_objects
    by (apply Forall_app; split; [exact Hd | by repeat constructor]).
  rewrite List.filter_app, filter_all
    by (eapply Forall_impl; [exact Hnone | intros item Hi; by apply negb_true_iff]).
  assert (Hlast : List.filter
                    (fun item => negb (entry_is_for ("generated_" ++ uuid4 E ++ ".png") item))
                    [entry] = [])
    by (cbn [List.filter]; by rewrite Hentry).
  rewrite Hlast, app_nil_r. simpl. rewrite Ho.
  by rewrite insert_insert_eq, insert_id.
Qed.

Lemma generate_then_delete_witness :
  let E := scenario (HttpOk (Some (body_of (JDict [("bytesBase64Encoded", JStr "QUJD")])))) in
  let st := State {[ "a.png" := Blob [Byte.x41];
                     metadata_path := JsonText (JList [entry_for "a.png"]) ]} [] in
  let run := App.generate_image_requests E st "a red fox" None None "1:1" "standard" in
  files (snd run) <> files st /\
  App.delete_image E (files (snd run)) ("generated_" ++ uuid4 E ++ ".png")
  = (App.Response true None 200, files st).
Proof.
  split.
  - intros H.
    assert (H' : files (snd (App.generate_image_requests
                    (scenario (HttpOk (Some (body_of
                       (JDict [("bytesBase64Encoded", JStr "QUJD")])))))
                    (State {[ "a.png" := Blob [Byte.x41];
                              metadata_path := JsonText (JList [entry_for "a.png"]) ]} [])
                    "a red fox" None None "1:1" "standard"))
                 !! "generated_123e4567-e89b-12d3-a456-426614174000.png"
               = (files (State {[ "a.png" := Blob [Byte.x41];
                                  metadata_path := JsonText (JList [entry_for "a.png"]) ]} []))
                 !! "generated_123e4567-e89b-12d3-a456-426614174000.png")
      by (by rewrite H).
    vm_compute in H'. discriminate.
  - apply (generate_then_delete
             (scenario (HttpOk (Some (body_of (JDict [("bytesBase64Encoded", JStr "QUJD")])))))
             (State {[ "a.png" := Blob [Byte.x41];
                       metadata_path := JsonText (JList [entry_for "a.png"]) ]} [])
             "a red fox" None None "1:1" "standard"
             "/static/generated/generated_123e4567-e89b-12d3-a456-426614174000.png"
             [entry_for "a.png"]);
      try reflexivity; repeat constructor.
Defined.

(* ===================================================================== *)
(** * The access token                                                    *)
(* ===================================================================== *)

Lemma token_that_counts (o : option string) (t : string) :
  (if negb (truthy_str o) then None else o) = Some t -> o = Some t /\ t <> "".
Proof.
  destruct o as [s|]; simpl; [| discriminate].
  destruct (String.eqb_spec s ""); simpl; [discriminate |]. by intros [= <-].
Qed.

Lemma app_token_result (A : auth) (cache : option credentials) (t : string) :
  fst (AppAuth.get_access_token A cache) = Some t ->
  exists c, snd (AppAuth.get_access_token A cache) = Some c /\ token c = Some t /\ t <> "".
Proof.
  assert (Hfin : forall c : credentials,
             fst (if negb (truthy_str (token c)) then (None, Some c) else (token c, Some c))
             = Some t ->
             exists c0,
               snd (if negb (truthy_str (token c)) then (None, Some c) else (token c, Some c))
               = Some c0 /\ token c0 = Some t /\ t <> "").
  { intros c H. pose proof (token_that_counts (token c) t) as Ht.
    destruct (negb (truthy_str (token c))); [discriminate |].
    destruct (Ht H) as [H1 H2]. by exists c. }
  unfold AppAuth.get_access_token. cbv zeta.
  destruct cache as [c|]; [destruct (valid c); simpl; [apply Hfin |] |];
    (destruct (auth_default A) as [d|[]]; simpl; try discriminate;
     destruct (has_refresh d); [| apply Hfin];
     destruct (refresh A d) as [d'|[]]; simpl; try discriminate; apply Hfin).
Qed.

(** X28.  A token that [get_access_token] returns is never empty.  In app.py
    it is the token of the credentials that the call leaves in the cache; in
    the texture scripts it is the token of the default credentials after
    their refresh. *)
Theorem access_token_is_never_empty
    (A : auth) (cache : option credentials) (t : string) :
  (fst (AppAuth.get_access_token A cache) = Some t ->
   t <> "" /\
   exists c, snd (AppAuth.get_access_token A cache) = Some c /\ token c = Some t) /\
  (TextureAuth.get_access_token A = Some t ->
   t <> "" /\
   exists c c', auth_default A = inl c /\ has_refresh c = true /\
                refresh A c = inl c' /\ token c' = Some t).
Proof.
  split.
  - intros H. destruct (app_token_result A cache t H) as (c & Hc & Ht & Hne). eauto.
  - unfold TextureAuth.get_access_token.
    destruct (auth_default A) as [c|]; [| discriminate].
    destruct (has_refresh c) eqn:Hh; [| discriminate].
    destruct (refresh A c) as [c'|] eqn:Hr; [| discriminate].
    intros H. destruct (token_that_counts _ _ H) as [Ht Hne].
    split; [exact Hne |]. by exists c, c'.
Qed.

(** X29.  Once a call of app.py has returned a token and left valid
    credentials in the cache, the next call returns the same token and leaves
    the cache as it is, whatever the credential library would answer: it is
    not asked. *)
Theorem cached_token_is_reused
    (A A' : auth) (cache : option credentials) (t : string) (c : credentials) :
  AppAuth.get_access_token A cache = (Some t, Some c) ->
  valid c = true ->
  AppAuth.get_access_token A' (Some c) = (Some t, Some c).
Proof.
  intros H Hv.
  destruct (app_token_result A cache t) as (c0 & Hc & Ht & Hne); [by rewrite H |].
  rewrite H in Hc. injection Hc as <-.
  unfold AppAuth.get_access_token. cbv zeta. rewrite Hv, Ht. simpl.
  by destruct (String.eqb_spec t "").
Qed.

Lemma cached_token_is_reused_witness :
  let fresh := Credentials true (Some "ya29.token") true in
  let A := Auth (inl (Credentials false None true)) (fun _ => inl fresh) in
  let A' := Auth (inr DefaultCredentialsError) (fun _ => inr RefreshError) in
  AppAuth.get_access_token A None = (Some "ya29.token", Some fresh) /\
  AppAuth.get_access_token A' (Some fresh) = (Some "ya29.token", Some fresh) /\
  AppAuth.get_access_token A' None = (None, None).
Proof.
  split; [reflexivity |]. split; [| reflexivity].
  exact (cached_token_is_reused
           (Auth (inl (Credentials false None true))
                 (fun _ => inl (Credentials true (Some "ya29.token") true)))
           (Auth (inr DefaultCredentialsError) (fun _ => inr RefreshError))
           None "ya29.token" (Credentials true (Some "ya29.token") true) eq_refl eq_refl).
Defined.

(* ===================================================================== *)
(** * The request of the 3D add-on                                        *)
(* ===================================================================== *)

Lemma has_char_app c (a b : string) :
  has_char c (a ++ b) = has_char c a || has_char c b.
Proof.
  induction a as [|x a IH]; [reflexivity |]. simpl. by rewrite IH, orb_assoc.
Qed.

Lemma any_char_in_app chars (a b : string) :
  any_char_in chars (a ++ b) = any_char_in chars a || any_char_in chars b.
Proof.
  induction chars as [|c chars IH]; [reflexivity |].
  cbn [any_char_in]. rewrite IH, has_char_app.
  destruct (has_char c a), (has_char c b), (any_char_in chars a); reflexivity.
Qed.

Lemma substring_all (p : string) : substring 0 (String.length p) p = p.
Proof. induction p as [|c p IH]; [reflexivity |]. simpl. by rewrite IH. Qed.

Lemma endswith_app (p a : string) : endswith p (a ++ p) = true.
Proof.
  unfold endswith.
  assert (Hlen : String.length (a ++ p) = (String.length a + String.length p)%nat)
    by (induction a as [|x a IH]; simpl; [reflexivity | by rewrite IH]).
  rewrite Hlen. clear Hlen.
  replace (String.length a + String.length p - String.length p)%nat
    with (String.length a) by lia.
  assert (Hsub : substring (String.length a) (String.length p) (a ++ p) = p)
    by (induction a as [|x a IH]; simpl; [apply substring_all | exact IH]).
  rewrite Hsub, String.eqb_refl, andb_true_r.
  apply Nat.leb_le. lia.
Qed.

(** X30.  The request that the add-on sends for a texture type passes the
    checks of [/generate_texture] exactly when the texture type holds none of
    the forbidden characters; otherwise the service refuses it with "Invalid
    output filename." and status 400.  The texture type is free text, and it
    is never refused for being empty. *)
Theorem addon_request_is_checked (texture_type : string) :
  validate (Addon.request texture_type)
  = if any_char_in forbidden_chars texture_type
    then Return (inl (Refused "Invalid output filename." 400))
    else Return (inr (JStr ("Seamless " ++ texture_type
                              ++ " surface texture, realistic PBR material, suitable for Blender."),
                      ("blender_" ++ texture_type ++ "_texture.png")%string)).
Proof.
  assert (He : endswith ".png" ("blender_" ++ texture_type ++ "_texture.png") = true).
  { change "_texture.png" with ("_texture" ++ ".png")%string.
    rewrite <- !append_assoc. apply endswith_app. }
  assert (Hc : any_char_in forbidden_chars ("blender_" ++ texture_type ++ "_texture.png")
               = any_char_in forbidden_chars texture_type).
  { rewrite !any_char_in_app.
    change (any_char_in forbidden_chars "blender_") with false.
    change (any_char_in forbidden_chars "_texture.png") with false.
    by rewrite orb_false_r. }
  unfold validate, Addon.request, mbind, exc_bind, py_get.
  change (assoc "prompt" _) with
    (Some (JStr ("Seamless " ++ texture_type
                   ++ " surface texture, realistic PBR material, suitable for Blender."))).
  change (assoc "output_filename" _) with
    (Some (JStr ("blender_" ++ texture_type ++ "_texture.png"))).
  cbv beta iota.
  change (truthy (JStr ("Seamless " ++ _))) with true.
  change (truthy (JStr ("blender_" ++ _))) with true.
  cbn [negb orb]. rewrite He, Hc. cbn [negb orb].
  by destruct (any_char_in forbidden_chars texture_type).
Qed.
